(** * Environmental Impact Explorer: the metric pipeline of [app.py]

    A shallow embedding of the helper functions of [app.py]
    ([convert_power_to_kwh_per_year], [convert_water_to_liters_per_year],
    [validate_numeric_input]), of the data frame built by
    [create_environmental_map] and of the control flow of [main], followed by
    the properties the specification states about them.

    Numbers.  A Python [float] is an IEEE binary64 value.  It is represented
    here by an exact rational or by [NaN], the one non-number the cleaning
    step of the pipeline is concerned with.  Rounding, overflow and the two
    infinities are outside this representation; every statement below is
    about exact arithmetic.

    Effects.  Streamlit calls ([st.error], [st.metric], ...) only write to
    the page.  A computation is therefore a list of the calls it made
    together with either its return value or the exception that ended it. *)

From Stdlib Require Import ZArith QArith Qround List String Ascii Bool.
From Stdlib Require Import Lia Lqa DecimalString Sorted Permutation.
Import ListNotations.

Local Open Scope string_scope.

(* ------------------------------------------------------------------ *)
(** ** Python numbers *)

Inductive pyfloat : Type :=
| NaN
| Fin (q : Q).

(** An [int] or a [float]: the conversion helpers return the [int] literal
    [0] on one path and a [float] on the others. *)
Inductive pynum : Type :=
| PyInt (z : Z)
| PyFloat (x : pyfloat).

Definition of_int (z : Z) : pyfloat := Fin (inject_Z z).

(** [x * y] on floats; NaN is absorbing. *)
Definition fmul (x y : pyfloat) : pyfloat :=
  match x, y with
  | Fin a, Fin b => Fin (a * b)
  | _, _ => NaN
  end.

Definition Qlt_bool (a b : Q) : bool := negb (Qle_bool b a).

(** Comparisons: every comparison with NaN is [False]. *)
Definition fle (x y : pyfloat) : bool :=
  match x, y with
  | Fin a, Fin b => Qle_bool a b
  | _, _ => false
  end.

Definition flt (x y : pyfloat) : bool :=
  match x, y with
  | Fin a, Fin b => Qlt_bool a b
  | _, _ => false
  end.

Definition fgt (x y : pyfloat) : bool := flt y x.

Definition feq (x y : pyfloat) : bool :=
  match x, y with
  | Fin a, Fin b => Qeq_bool a b
  | _, _ => false
  end.

Definition to_float (n : pynum) : pyfloat :=
  match n with
  | PyInt z => of_int z
  | PyFloat x => x
  end.

(** Python's [==] between numbers compares the values, whatever the types. *)
Definition py_eq (m n : pynum) : bool := feq (to_float m) (to_float n).

(* ------------------------------------------------------------------ *)
(** ** Unit conversion *)

Definition power_units : list string := ["kWh/yr"; "kWh/mo"; "kW"; "MW"].

Definition water_units : list string :=
  ["L/yr"; "L/mo"; "L/s"; "gpm"; "gal/mo"].

Definition convert_power_to_kwh_per_year (value : pyfloat) (unit : string)
  : pynum :=
  if unit =? "kWh/yr" then PyFloat value
  else if unit =? "kWh/mo" then PyFloat (fmul value (of_int 12))
  else if unit =? "kW" then PyFloat (fmul value (of_int 8760))
  else if unit =? "MW" then
    PyFloat (fmul (fmul value (of_int 1000)) (of_int 8760))
  else PyInt 0.

Definition convert_water_to_liters_per_year (value : pyfloat) (unit : string)
  : pynum :=
  if unit =? "L/yr" then PyFloat value
  else if unit =? "L/mo" then PyFloat (fmul value (of_int 12))
  else if unit =? "L/s" then PyFloat (fmul value (of_int 31536000))
  else if unit =? "gpm" then
    PyFloat (fmul (fmul value (of_int 525600)) (Fin 3.78541))
  else if unit =? "gal/mo" then
    PyFloat (fmul (fmul value (of_int 12)) (Fin 3.78541))
  else PyInt 0.

(* ------------------------------------------------------------------ *)
(** ** Exceptions and page output *)

(** The exception classes that occur, and [Named] for a class known by its
    name only (the specification's [UnknownUnit], [EmptyResult], ...). *)
Inductive pyexn : Type :=
| ValueError
| KeyError
| IndexError
| UnboundLocalError
| StopException
| Named (cls : string).

Inductive outcome (A : Type) : Type :=
| Returns (a : A)
| Raises (e : pyexn).

Arguments Returns {A} a.
Arguments Raises {A} e.

Inductive category : Type :=
| LowImpact
| MediumImpact
| HighImpact.

(** A row of the data frame: the columns [fips], [value] and, once it is
    assigned, [category]. *)
Record row : Type := mkRow {
  r_fips : string;
  r_value : pyfloat;
  r_category : option category
}.

(** What a metric tile shows.  The numbers are kept as numbers: their
    formatting into text is not part of the model. *)
Inductive shown : Type :=
| Counties (n : nat)
| AtMost (cut : pyfloat)
| Between (lo hi : pyfloat)
| Above (cut : pyfloat)
| PerYear (x : pynum) (unit : string)
| From (v : pyfloat) (unit : string).

Inductive heading : Type :=
| HConfiguration
| HFacilityInformation
| HActions
| HStatistics
| HYourFacilitysImpact
| HWelcome.

Inductive banner : Type :=
| AboutThisTool
| ThankYou
| FacilityNote
| GetStarted.

(** The Streamlit calls that write to the page. *)
Inductive st_call : Type :=
| StTitle
| StMarkdown (b : option banner)
| StSubheader (h : heading)
| StInfo (b : banner)
| StWarning (b : banner)
| StBalloons
| StImage
| StError (msg : string)
| StPlotlyChart (df : list row) (metric : string)
| StMetric (label : string) (value delta : shown).

(** A computation: the calls made so far and how it ended. *)
Definition St (A : Type) : Type := list st_call * outcome A.

Definition ret {A} (a : A) : St A := ([], Returns a).

Definition raise {A} (e : pyexn) : St A := ([], Raises e).

Definition emit (c : st_call) : St unit := ([c], Returns tt).

Definition bind {A B} (m : St A) (k : A -> St B) : St B :=
  match m with
  | (w, Returns a) => let (w', o) := k a in ((w ++ w')%list, o)
  | (w, Raises e) => (w, Raises e)
  end.

(** A pure computation that may raise. *)
Definition lift {A} (o : outcome A) : St A := ([], o).

Notation "x <- m ;; k" := (bind m (fun x => k))
  (at level 61, m at next level, right associativity).
Notation "m ;;; k" := (bind m (fun _ => k))
  (at level 61, right associativity).

Definition calls {A} (m : St A) : list st_call := fst m.

Definition result {A} (m : St A) : outcome A := snd m.

(* ------------------------------------------------------------------ *)
(** ** Strings: [str.strip] and [float(str)] *)

(** The ASCII characters [str.isspace] accepts: tab, line feed, vertical
    tab, form feed, carriage return, the four separators 28..31, space. *)
Definition is_space (c : ascii) : bool :=
  let n := nat_of_ascii c in
  ((9 <=? n) && (n <=? 13) || (28 <=? n) && (n <=? 32))%nat.

Fixpoint lstrip (s : string) : string :=
  match s with
  | EmptyString => EmptyString
  | String c r => if is_space c then lstrip r else s
  end.

Fixpoint rstrip (s : string) : string :=
  match s with
  | EmptyString => EmptyString
  | String c r =>
      match rstrip r with
      | EmptyString => if is_space c then EmptyString else String c EmptyString
      | r' => String c r'
      end
  end.

Definition strip (s : string) : string := rstrip (lstrip s).

(** Truth value of a string: non-empty. *)
Definition truthy (s : string) : bool :=
  match s with
  | EmptyString => false
  | String _ _ => true
  end.

Definition digit_of (c : ascii) : option Z :=
  let n := nat_of_ascii c in
  if ((48 <=? n) && (n <=? 57))%nat then Some (Z.of_nat n - 48)%Z else None.

(** The rest of a digit part: digits, each optionally preceded by one
    underscore.  Returns the accumulated value, the number of digits read
    and the unread suffix. *)
Fixpoint digits_tail (l : list ascii) (acc : Z) (n : Z)
  : Z * Z * list ascii :=
  match l with
  | [] => (acc, n, [])
  | c :: r =>
      match digit_of c with
      | Some d => digits_tail r (10 * acc + d)%Z (n + 1)%Z
      | None =>
          if Ascii.eqb c "_" then
            match r with
            | c2 :: r2 =>
                match digit_of c2 with
                | Some d => digits_tail r2 (10 * acc + d)%Z (n + 1)%Z
                | None => (acc, n, l)
                end
            | [] => (acc, n, l)
            end
          else (acc, n, l)
      end
  end.

(** [digitpart ::= digit (["_"] digit)*]; [None] when no digit starts [l]. *)
Definition digitpart (l : list ascii) : option (Z * Z * list ascii) :=
  match l with
  | c :: r =>
      match digit_of c with
      | Some d => Some (digits_tail r d 1%Z)
      | None => None
      end
  | [] => None
  end.

Definition read_sign (l : list ascii) : bool * list ascii :=
  match l with
  | c :: r =>
      if Ascii.eqb c "-" then (true, r)
      else if Ascii.eqb c "+" then (false, r)
      else (false, l)
  | [] => (false, [])
  end.

(** [number ::= [digitpart] "." digitpart | digitpart ["."]]: the digits as
    one integer, the count of digits after the point, the unread suffix. *)
Definition read_number (l : list ascii) : option (Z * Z * list ascii) :=
  match digitpart l with
  | Some (i, _, rest) =>
      match rest with
      | c :: r =>
          if Ascii.eqb c "." then
            match digitpart r with
            | Some (f, k, rest') => Some ((i * 10 ^ k + f)%Z, k, rest')
            | None => Some (i, 0%Z, r)
            end
          else Some (i, 0%Z, rest)
      | [] => Some (i, 0%Z, [])
      end
  | None =>
      match l with
      | c :: r =>
          if Ascii.eqb c "." then
            match digitpart r with
            | Some (f, k, rest') => Some (f, k, rest')
            | None => None
            end
          else None
      | [] => None
      end
  end.

(** [exponent ::= ("e" | "E") [sign] digitpart], to the end of the text;
    no exponent counts as exponent 0. *)
Definition read_exponent (l : list ascii) : option Z :=
  match l with
  | [] => Some 0%Z
  | c :: r =>
      if Ascii.eqb c "e" || Ascii.eqb c "E" then
        let (neg, r') := read_sign r in
        match digitpart r' with
        | Some (e, _, []) => Some (if neg then (- e)%Z else e)
        | _ => None
        end
      else None
  end.

Definition lower (c : ascii) : ascii :=
  let n := nat_of_ascii c in
  if ((65 <=? n) && (n <=? 90))%nat then ascii_of_nat (n + 32) else c.

(** [float(text)]: surrounding whitespace is ignored; the text is an
    optionally signed decimal numeral with optional fraction and exponent,
    or [nan] in any letter case.  [None] stands for [ValueError].  The
    spellings of the infinities have no value in this representation of
    floats and are not numerals here. *)
Definition float_of_str (text : string) : option pyfloat :=
  let (neg, body) := read_sign (list_ascii_of_string (strip text)) in
  if String.eqb (string_of_list_ascii (map lower body)) "nan" then Some NaN
  else
    match read_number body with
    | Some (m, k, rest) =>
        match read_exponent rest with
        | Some e =>
            let q := (inject_Z m * Qpower 10 (e - k))%Q in
            Some (Fin (if neg then Qopp q else q))
        | None => None
        end
    | None => None
    end.

(* ------------------------------------------------------------------ *)
(** ** Input validation *)

Definition validate_numeric_input (value field_name : string)
  : St (bool * pyfloat) :=
  if negb (truthy (strip value)) then ret (false, of_int 0)
  else
    match float_of_str value with
    | Some numeric_value =>
        if flt numeric_value (of_int 0) then
          emit (StError (field_name ++ " must be a positive number")) ;;;
          ret (false, of_int 0)
        else ret (true, numeric_value)
    | None =>
        emit (StError (field_name ++ " must be a valid number")) ;;;
        ret (false, of_int 0)
    end.

(* ------------------------------------------------------------------ *)
(** ** The dataset and the data frame of the map *)

(** The dictionary [load_data] returns: four flattened arrays. *)
Record dataset : Type := mkData {
  AWAREUSCF : list pyfloat;
  EFkgkWh : list pyfloat;
  EWIF : list pyfloat;
  CountyFIPS : list pyfloat
}.

(** [d[key]] on a dictionary given by its items. *)
Fixpoint getitem {A} (d : list (string * A)) (key : string) : outcome A :=
  match d with
  | [] => Raises KeyError
  | (k, v) :: rest => if k =? key then Returns v else getitem rest key
  end.

Definition metric_map (data : dataset) : list (string * list pyfloat) :=
  [ ("carbon footprint", EFkgkWh data);
    ("scope 1 & 2 water footprint", EWIF data);
    ("water scarcity footprint", AWAREUSCF data) ].

(** [int(x)] truncates towards zero and rejects NaN. *)
Definition int_of_float (x : pyfloat) : outcome Z :=
  match x with
  | NaN => Raises ValueError
  | Fin q => Returns (Z.quot (Qnum q) (Zpos (Qden q)))
  end.

Definition str_of_int (z : Z) : string := NilZero.string_of_int (Z.to_int z).

Fixpoint zeros (n : nat) : string :=
  match n with
  | O => EmptyString
  | S k => String "0" (zeros k)
  end.

(** [s.zfill(width)]: zeros go after a leading sign. *)
Definition zfill (width : nat) (s : string) : string :=
  let pad := zeros (width - String.length s) in
  match s with
  | String c r =>
      if Ascii.eqb c "-" || Ascii.eqb c "+" then String c (pad ++ r)
      else pad ++ s
  | EmptyString => pad
  end.

(** [[str(int(fips_code)).zfill(5) for fips_code in fips]]. *)
Fixpoint fips_strings (fips : list pyfloat) : outcome (list string) :=
  match fips with
  | [] => Returns []
  | fips_code :: rest =>
      match int_of_float fips_code with
      | Raises e => Raises e
      | Returns z =>
          match fips_strings rest with
          | Raises e => Raises e
          | Returns l => Returns (zfill 5 (str_of_int z) :: l)
          end
      end
  end.

(** [pd.DataFrame({"fips": ..., "value": ...})]: the columns must have one
    length. *)
Definition DataFrame (fips : list string) (values : list pyfloat)
  : outcome (list row) :=
  if (List.length fips =? List.length values)%nat then
    Returns (map (fun fv => mkRow (fst fv) (snd fv) None) (combine fips values))
  else Raises ValueError.

Definition isnan (x : pyfloat) : bool :=
  match x with
  | NaN => true
  | Fin _ => false
  end.

(** [df.dropna()]: the [fips] column holds strings, so a row is dropped
    exactly when its [value] is NaN. *)
Definition dropna (df : list row) : list row :=
  filter (fun r => negb (isnan (r_value r))) df.

(** [df[df["value"] > 0]]. *)
Definition positive (df : list row) : list row :=
  filter (fun r => fgt (r_value r) (of_int 0)) df.

Definition column_value (df : list row) : list pyfloat := map r_value df.

(* ------------------------------------------------------------------ *)
(** ** [np.percentile], default (linear) method *)

Fixpoint insert (x : Q) (l : list Q) : list Q :=
  match l with
  | [] => [x]
  | y :: r => if Qle_bool x y then x :: l else y :: insert x r
  end.

Definition sort (l : list Q) : list Q := fold_right insert [] l.

(** The numbers of a column, or [None] when it holds a NaN. *)
Fixpoint finite_values (a : list pyfloat) : option (list Q) :=
  match a with
  | [] => Some []
  | NaN :: _ => None
  | Fin q :: rest =>
      match finite_values rest with
      | Some qs => Some (q :: qs)
      | None => None
      end
  end.

(** Position of percentile [p] among [n] sorted values: [p/100 * (n-1)]. *)
Definition virtual_index (n : nat) (p : Q) : Q :=
  (p / 100 * (inject_Z (Z.of_nat n) - 1))%Q.

Definition lerp (a b t : Q) : Q := (a + (b - a) * t)%Q.

(** The value at position [idx] of the sorted values [s]: interpolation
    between the elements at [floor idx] and the next index, the latter
    capped at the last one. *)
Definition interpolate (s : list Q) (idx : Q) : Q :=
  let i := Qfloor idx in
  let gamma := (idx - inject_Z i)%Q in
  let previous := nth (Z.to_nat i) s 0%Q in
  let next :=
    nth (Z.to_nat (Z.min (i + 1) (Z.of_nat (List.length s) - 1))) s 0%Q in
  lerp previous next gamma.

(** Modelled from the spec: [np.percentile], which the source calls and
    does not define.  For a one-dimensional [a] and [0 <= p <= 100] it is
    the linear method of section 4.2, step 3: the sorted values are
    interpolated at position [p/100 * (n-1)].  Two cases the specification
    leaves open follow NumPy: an empty [a] has no element to take and gives
    [IndexError]; a NaN in [a] makes the result NaN. *)
Definition np_percentile (a : list pyfloat) (p : Q) : outcome pyfloat :=
  match a with
  | [] => Raises IndexError
  | _ :: _ =>
      match finite_values a with
      | None => Returns NaN
      | Some qs =>
          let s := sort qs in
          Returns (Fin (interpolate s (virtual_index (List.length s) p)))
      end
  end.

(* ------------------------------------------------------------------ *)
(** ** Classification and the map *)

(** The closure [categorize_value], with the two cut-offs it captures made
    parameters. *)
Definition categorize_value (low_percentile high_percentile val : pyfloat)
  : category :=
  if fle val low_percentile then LowImpact
  else if fle val high_percentile then MediumImpact
  else HighImpact.

(** The frame with its [category] column, and the two cut-offs. *)
Record classified : Type := mkClassified {
  c_df : list row;
  c_low : pyfloat;
  c_high : pyfloat
}.

Definition and_then {A B} (o : outcome A) (k : A -> outcome B) : outcome B :=
  match o with
  | Returns a => k a
  | Raises e => Raises e
  end.

(** Lines 289-326 of [create_environmental_map]: everything up to the
    [category] column.  The display-only column [formatted_value] is left
    out.  The parameter [state] is not read by the function body. *)
Definition classified_frame (data : dataset) (metric_option state : string)
  : outcome classified :=
  and_then (getitem (metric_map data) metric_option) (fun values =>
  let fips := CountyFIPS data in
  and_then (fips_strings fips) (fun fips_strs =>
  and_then (DataFrame fips_strs values) (fun df =>
  let df := dropna df in
  let df := positive df in
  and_then (np_percentile (column_value df) 33) (fun low_percentile =>
  and_then (np_percentile (column_value df) 66) (fun high_percentile =>
  let df :=
    map (fun r =>
           mkRow (r_fips r) (r_value r)
             (Some (categorize_value low_percentile high_percentile
                      (r_value r)))) df in
  Returns (mkClassified df low_percentile high_percentile)))))).

Definition category_eqb (c d : category) : bool :=
  match c, d with
  | LowImpact, LowImpact => true
  | MediumImpact, MediumImpact => true
  | HighImpact, HighImpact => true
  | _, _ => false
  end.

(** [len(df[df['category'] == c])]. *)
Definition count_category (c : category) (df : list row) : nat :=
  List.length
    (filter (fun r =>
               match r_category r with
               | Some d => category_eqb d c
               | None => false
               end) df).

Definition create_environmental_map (data : dataset)
    (metric_option state : string) : St unit :=
  c <- lift (classified_frame data metric_option state) ;;
  let df := c_df c in
  emit (StPlotlyChart df metric_option) ;;;
  emit (StSubheader HStatistics) ;;;
  emit (StMetric "Low Impact Counties"
          (Counties (count_category LowImpact df)) (AtMost (c_low c))) ;;;
  emit (StMetric "Medium Impact Counties"
          (Counties (count_category MediumImpact df))
          (Between (c_low c) (c_high c))) ;;;
  emit (StMetric "High Impact Counties"
          (Counties (count_category HighImpact df)) (Above (c_high c))).

(* ------------------------------------------------------------------ *)
(** ** The facility figures and [main] *)

Definition calculate_facility_impact (power_value : pyfloat)
    (power_unit : string) (water_value : pyfloat) (water_unit : string)
    (metric_option : string) : St unit :=
  let power_kwh_per_year :=
    convert_power_to_kwh_per_year power_value power_unit in
  let water_liters_per_year :=
    convert_water_to_liters_per_year water_value water_unit in
  emit (StSubheader HYourFacilitysImpact) ;;;
  emit (StMetric "Annual Power Consumption"
          (PerYear power_kwh_per_year "kWh/year")
          (From power_value power_unit)) ;;;
  emit (StMetric "Annual Water Consumption"
          (PerYear water_liters_per_year "L/year")
          (From water_value water_unit)) ;;;
  emit (StInfo FacilityNote).

(** The widget values of one run of the script. *)
Record widgets : Type := mkWidgets {
  state : string;
  metric_option : string;
  power_value : string;
  power_unit : string;
  water_value : string;
  water_unit : string;
  about : bool;
  make_plot : bool;
  exit : bool
}.

(** The [with col1:] block: headings and the About and Exit buttons. *)
Definition main_col1 (w : widgets) : St unit :=
  emit (StSubheader HConfiguration) ;;;
  emit (StSubheader HFacilityInformation) ;;;
  emit (StSubheader HActions) ;;;
  (if about w then emit (StInfo AboutThisTool) else ret tt) ;;;
  (if exit w then
     emit (StWarning ThankYou) ;;; emit StBalloons ;;; raise StopException
   else ret tt).

(** One of the two optional fields: validated when it is not blank.  The
    local [*_numeric] is bound only then. *)
Definition validate_if_provided (value field_name : string)
  : St (bool * option pyfloat) :=
  if truthy (strip value) then
    r <- validate_numeric_input value field_name ;;
    ret (fst r, Some (snd r))
  else ret (true, None).

(** The [with col2:] block. *)
Definition main_col2 (data : dataset) (w : widgets) : St unit :=
  if make_plot w then
    p <- validate_if_provided (power_value w) "Power consumption" ;;
    q <- validate_if_provided (water_value w) "Water consumption" ;;
    let power_valid := fst p in
    let water_valid := fst q in
    if power_valid && water_valid then
      create_environmental_map data (metric_option w) (state w) ;;;
      if truthy (strip (power_value w)) && truthy (strip (water_value w)) then
        match snd p, snd q with
        | Some power_numeric, Some water_numeric =>
            calculate_facility_impact power_numeric (power_unit w)
              water_numeric (water_unit w) (metric_option w)
        | _, _ => raise UnboundLocalError
        end
      else ret tt
    else ret tt
  else
    emit (StSubheader HWelcome) ;;;
    emit (StMarkdown (Some GetStarted)) ;;;
    emit StImage.

(** One run of the script, from the dictionary [load_data] returned and
    the values of the widgets. *)
Definition main (data : dataset) (w : widgets) : St unit :=
  emit StTitle ;;;
  emit (StMarkdown None) ;;;
  main_col1 w ;;;
  main_col2 data w.

(** Modelled from the spec: the county filter.  The source holds no
    state-to-county table; the specification leaves it to the state
    selection UI and fixes only its shape: the whole country admits every
    county, a state admits the counties whose identifier starts with the
    code the table gives for it. *)
Definition county_filter (codes : list (string * string))
    (selector fips : string) : bool :=
  if selector =? "USA" then true
  else
    match getitem codes selector with
    | Returns code => String.prefix code fips
    | Raises _ => false
    end.

(** A Python call of a function whose body raises nothing. *)
Definition call {A} (a : A) : outcome A := Returns a.

(** Text made of whitespace only (the empty text included). *)
Fixpoint blank (s : string) : bool :=
  match s with
  | EmptyString => true
  | String c r => is_space c && blank r
  end.

(** The calls only [calculate_facility_impact] makes. *)
Definition facility_call (c : st_call) : bool :=
  match c with
  | StSubheader HYourFacilitysImpact => true
  | StMetric _ (PerYear _ _) _ => true
  | StInfo FacilityNote => true
  | _ => false
  end.

(** A computation that makes none of them. *)
Definition quiet {A} (m : St A) : Prop :=
  forallb (fun c => negb (facility_call c)) (calls m) = true.

(* ------------------------------------------------------------------ *)
(** ** Loading the dataset *)

(** What [scipy.io.loadmat] finds: no file, a file it cannot read (with
    the text of the exception), or the variables of the file, each a
    two-dimensional array given by its rows. *)
Inductive mat_file : Type :=
| MatMissing
| MatUnreadable (message : string)
| MatFile (metrics : list (string * list (list pyfloat))).

(** [m.flatten()]: the rows one after the other. *)
Definition flatten (m : list (list pyfloat)) : list pyfloat := List.concat m.

(** The two [except] branches: one [st.error], then [st.stop()]. *)
Definition load_failed {A} (msg : string) : St A :=
  emit (StError msg) ;;; raise StopException.

(** [str(KeyError(k))] is the key in quotes. *)
Definition str_KeyError (k : string) : string := "'" ++ k ++ "'".

(** [metrics[k].flatten()] inside the [try]: a missing variable is a
    [KeyError], which [except Exception] reports. *)
Definition load_array (metrics : list (string * list (list pyfloat)))
    (k : string) (cont : list pyfloat -> St dataset) : St dataset :=
  match getitem metrics k with
  | Returns m => cont (flatten m)
  | Raises _ => load_failed ("Error loading data: " ++ str_KeyError k)
  end.

Definition load_data (file : mat_file) : St dataset :=
  match file with
  | MatMissing =>
      load_failed
        "Data file 'CountyLevelMetrics.mat' not found. Please ensure it is in the same directory as this app."
  | MatUnreadable message => load_failed ("Error loading data: " ++ message)
  | MatFile metrics =>
      load_array metrics "AWAREUSCF" (fun aware =>
      load_array metrics "EFkgkWh" (fun ef =>
      load_array metrics "EWIF" (fun ewif =>
      load_array metrics "CountyFIPS" (fun fips =>
      ret (mkData aware ef ewif fips)))))
  end.

(** [main()] from its first line: the data is loaded, then the page is
    built. *)
Definition script (file : mat_file) (w : widgets) : St unit :=
  data <- load_data file ;;
  main data w.

(* ------------------------------------------------------------------ *)
(** ** Vocabulary of the further properties *)


(** Low before Medium before High. *)
Definition category_rank (c : category) : nat :=
  match c with
  | LowImpact => 0
  | MediumImpact => 1
  | HighImpact => 2
  end.

Definition is_chart (c : st_call) : bool :=
  match c with
  | StPlotlyChart _ _ => true
  | _ => false
  end.

Definition is_error (c : st_call) : bool :=
  match c with
  | StError _ => true
  | _ => false
  end.

(** The pairs (identifier, value) of a frame, row by row. *)
Definition pairs (df : list row) : list (string * pyfloat) :=
  map (fun r => (r_fips r, r_value r)) df.

(** [check] holds for the [n] integers from [z] on. *)
Fixpoint holds_from (check : Z -> bool) (n : nat) (z : Z) : bool :=
  match n with
  | O => true
  | S k => check z && holds_from check k (z + 1)%Z
  end.

(** The identifier of the integer code [z] has five characters and reads
    back, as a decimal numeral, as [z]. *)
Definition fips_identifier_ok (z : Z) : bool :=
  let s := zfill 5 (str_of_int z) in
  (String.length s =? 5)%nat &&
  match option_map Z.of_int (NilZero.int_of_string s) with
  | Some y => (y =? z)%Z
  | None => false
  end.

(* ================================================================== *)
(** * Properties *)

(** ** Unit conversion *)

Lemma eqb_not_In (u : string) (l : list string) :
  ~ In u l -> forallb (fun k => negb (u =? k)) l = true.
Proof.
  induction l as [|k l IH]; simpl; intros H; [reflexivity|].
  destruct (String.eqb_spec u k) as [->|_].
  - exfalso. apply H. now left.
  - simpl. apply IH. intros Hin. apply H. now right.
Qed.

(** C6.  The power table: for every value [v] the result is [v] for kWh/yr,
    [v * 12] for kWh/mo, [v * 8760] for kW and [v * 1000 * 8760] for MW (on
    a number [q] these are the rational products); and 5 kW is 43800. *)
Theorem convert_power_table :
  (forall v : pyfloat,
     convert_power_to_kwh_per_year v "kWh/yr" = PyFloat v /\
     convert_power_to_kwh_per_year v "kWh/mo"
       = PyFloat (fmul v (of_int 12)) /\
     convert_power_to_kwh_per_year v "kW"
       = PyFloat (fmul v (of_int 8760)) /\
     convert_power_to_kwh_per_year v "MW"
       = PyFloat (fmul (fmul v (of_int 1000)) (of_int 8760))) /\
  (forall q : Q,
     convert_power_to_kwh_per_year (Fin q) "kWh/mo" = PyFloat (Fin (q * 12)) /\
     convert_power_to_kwh_per_year (Fin q) "kW" = PyFloat (Fin (q * 8760)) /\
     convert_power_to_kwh_per_year (Fin q) "MW"
       = PyFloat (Fin (q * 1000 * 8760))) /\
  convert_power_to_kwh_per_year (Fin 5) "kW" = PyFloat (Fin 43800) /\
  py_eq (convert_power_to_kwh_per_year (Fin 5) "kW") (PyInt 43800) = true.
Proof.
  repeat split; reflexivity.
Qed.

(** C7.  The water table: [v] for L/yr, [v * 12] for L/mo,
    [v * 31536000] for L/s, [v * 525600 * 3.78541] for gpm and
    [v * 12 * 3.78541] for gal/mo, with these literals; and 2 gpm is
    [2 * 525600 * 3.78541]. *)
Theorem convert_water_table :
  (forall v : pyfloat,
     convert_water_to_liters_per_year v "L/yr" = PyFloat v /\
     convert_water_to_liters_per_year v "L/mo"
       = PyFloat (fmul v (of_int 12)) /\
     convert_water_to_liters_per_year v "L/s"
       = PyFloat (fmul v (of_int 31536000)) /\
     convert_water_to_liters_per_year v "gpm"
       = PyFloat (fmul (fmul v (of_int 525600)) (Fin 3.78541)) /\
     convert_water_to_liters_per_year v "gal/mo"
       = PyFloat (fmul (fmul v (of_int 12)) (Fin 3.78541))) /\
  (forall q : Q,
     convert_water_to_liters_per_year (Fin q) "L/mo" = PyFloat (Fin (q * 12)) /\
     convert_water_to_liters_per_year (Fin q) "L/s"
       = PyFloat (Fin (q * 31536000)) /\
     convert_water_to_liters_per_year (Fin q) "gpm"
       = PyFloat (Fin (q * 525600 * 3.78541)) /\
     convert_water_to_liters_per_year (Fin q) "gal/mo"
       = PyFloat (Fin (q * 12 * 3.78541))) /\
  convert_water_to_liters_per_year (Fin 2) "gpm"
    = PyFloat (Fin (2 * 525600 * 3.78541)) /\
  py_eq (convert_water_to_liters_per_year (Fin 2) "gpm")
        (PyFloat (Fin 3979222.992)) = true.
Proof.
  repeat split; reflexivity.
Qed.

(** C2, as the code has it.  For every value and every unit outside the two
    tables both conversions return the integer 0; nothing is raised. *)
Theorem unknown_unit_returns_zero (v : pyfloat) (u : string) :
  (~ In u power_units ->
     call (convert_power_to_kwh_per_year v u) = Returns (PyInt 0)) /\
  (~ In u water_units ->
     call (convert_water_to_liters_per_year v u) = Returns (PyInt 0)).
Proof.
  split; intros H; apply eqb_not_In in H; simpl in H;
    repeat (apply andb_prop in H; destruct H as [?E H]);
    repeat match goal with
           | E : negb _ = true |- _ => apply negb_true_iff in E
           end.
  - unfold call, convert_power_to_kwh_per_year. now rewrite E, E0, E1, E2.
  - unfold call, convert_water_to_liters_per_year.
    now rewrite E, E0, E1, E2, E3.
Qed.

Lemma unknown_unit_returns_zero_witness :
  ~ In "hp" power_units /\
  call (convert_power_to_kwh_per_year (Fin 5) "hp") = Returns (PyInt 0).
Proof.
  assert (H : ~ In "hp" power_units).
  { simpl. intros [H|[H|[H|[H|[]]]]]; discriminate H. }
  split; [exact H|].
  exact (proj1 (unknown_unit_returns_zero (Fin 5) "hp") H).
Defined.

(** C2, as the specification words it, fails: the unit "hp" is in neither
    table, yet converting 5 hp returns a number (the integer 0) for power
    and for water alike, and not the [UnknownUnit] failure. *)
Lemma unknown_unit_not_rejected :
  ~ In "hp" power_units /\ ~ In "hp" water_units /\
  call (convert_power_to_kwh_per_year (Fin 5) "hp") = Returns (PyInt 0) /\
  call (convert_water_to_liters_per_year (Fin 5) "hp") = Returns (PyInt 0) /\
  call (convert_power_to_kwh_per_year (Fin 5) "hp")
    <> Raises (Named "UnknownUnit") /\
  call (convert_water_to_liters_per_year (Fin 5) "hp")
    <> Raises (Named "UnknownUnit").
Proof.
  repeat split; try reflexivity; try discriminate.
  - simpl. intros [H|[H|[H|[H|[]]]]]; discriminate H.
  - simpl. intros [H|[H|[H|[H|[H|[]]]]]]; discriminate H.
Qed.

(** ** Input validation *)

Lemma lstrip_blank (s : string) : blank s = true -> lstrip s = "".
Proof.
  induction s as [|c r IH]; simpl; [reflexivity|].
  intros H. apply andb_prop in H. destruct H as [Hc Hr].
  rewrite Hc. now apply IH.
Qed.

Lemma strip_blank (s : string) : blank s = true -> strip s = "".
Proof.
  intros H. unfold strip. now rewrite (lstrip_blank s H).
Qed.

Lemma append_inj_l (p a b : string) : p ++ a = p ++ b -> a = b.
Proof.
  induction p as [|c p IH]; simpl; intros H; [exact H|].
  injection H as H. now apply IH.
Qed.

(** C8.  Blank input (empty or whitespace only) gives the "not provided"
    outcome: nothing is reported and the result is [(False, 0.0)].  "-3" is
    reported as not positive, "abc" as not a number, "0" is accepted with
    value 0.0.  The three refusals are different outcomes, told apart by
    what is reported. *)
Theorem validate_numeric_input_outcomes (field_name : string) :
  (forall value, blank value = true ->
     validate_numeric_input value field_name
       = ([], Returns (false, of_int 0))) /\
  validate_numeric_input "-3" field_name
    = ([StError (field_name ++ " must be a positive number")],
       Returns (false, of_int 0)) /\
  validate_numeric_input "abc" field_name
    = ([StError (field_name ++ " must be a valid number")],
       Returns (false, of_int 0)) /\
  validate_numeric_input "0" field_name = ([], Returns (true, of_int 0)) /\
  validate_numeric_input "-3" field_name
    <> validate_numeric_input "abc" field_name /\
  validate_numeric_input "-3" field_name
    <> validate_numeric_input "" field_name /\
  validate_numeric_input "abc" field_name
    <> validate_numeric_input "" field_name.
Proof.
  split; [|repeat split]; try reflexivity.
  - intros value H. unfold validate_numeric_input.
    now rewrite (strip_blank value H).
  - intros H. injection H as H. apply append_inj_l in H. discriminate H.
  - discriminate.
  - discriminate.
Qed.

Lemma validate_numeric_input_outcomes_witness :
  blank "  " = true /\
  validate_numeric_input "  " "Power consumption"
    = ([], Returns (false, of_int 0)).
Proof.
  split; [reflexivity|].
  apply (proj1 (validate_numeric_input_outcomes "Power consumption")).
  reflexivity.
Defined.

(** ** Cleaning *)


Lemma column_value_filter (f : pyfloat -> bool) (df : list row) :
  column_value (filter (fun r => f (r_value r)) df)
  = filter f (column_value df).
Proof.
  induction df as [|r df IH]; simpl; [reflexivity|].
  destruct (f (r_value r)); simpl; now rewrite IH.
Qed.

Lemma filter_filter {A} (f g : A -> bool) (l : list A) :
  filter g (filter f l) = filter (fun x => f x && g x) l.
Proof.
  induction l as [|x l IH]; simpl; [reflexivity|].
  destruct (f x); simpl; [destruct (g x)|]; now rewrite IH.
Qed.

Lemma column_value_clean (df : list row) :
  column_value (positive (dropna df))
  = filter (fun v => negb (isnan v) && fgt v (of_int 0)) (column_value df).
Proof.
  unfold positive, dropna.
  rewrite (column_value_filter (fun v => fgt v (of_int 0))).
  rewrite (column_value_filter (fun v => negb (isnan v))).
  apply filter_filter.
Qed.

Lemma and_then_Returns {A B} (o : outcome A) (k : A -> outcome B) (b : B) :
  and_then o k = Returns b -> exists a, o = Returns a /\ k a = Returns b.
Proof.
  destruct o as [a|e]; simpl; intros H; [|discriminate H].
  now exists a.
Qed.

(** The steps of [classified_frame], read back from a successful run. *)
Lemma classified_frame_Returns data metric_option state c :
  classified_frame data metric_option state = Returns c ->
  exists values strs df,
    getitem (metric_map data) metric_option = Returns values /\
    fips_strings (CountyFIPS data) = Returns strs /\
    DataFrame strs values = Returns df /\
    np_percentile (column_value (positive (dropna df))) 33
      = Returns (c_low c) /\
    np_percentile (column_value (positive (dropna df))) 66
      = Returns (c_high c) /\
    c_df c
      = map (fun r =>
               mkRow (r_fips r) (r_value r)
                 (Some (categorize_value (c_low c) (c_high c) (r_value r))))
            (positive (dropna df)).
Proof.
  unfold classified_frame. intros H.
  apply and_then_Returns in H. destruct H as [values [Hv H]].
  apply and_then_Returns in H. destruct H as [strs [Hs H]].
  apply and_then_Returns in H. destruct H as [df [Hd H]].
  apply and_then_Returns in H. destruct H as [lo [Hlo H]].
  apply and_then_Returns in H. destruct H as [hi [Hhi H]].
  injection H as <-. simpl.
  exists values, strs, df. repeat split; assumption.
Qed.

Lemma column_value_categorized (f : pyfloat -> category) (df : list row) :
  column_value
    (map (fun r => mkRow (r_fips r) (r_value r) (Some (f (r_value r)))) df)
  = column_value df.
Proof.
  unfold column_value. rewrite map_map. reflexivity.
Qed.



(** ** Sorting and interpolation *)

Lemma insert_In (x y : Q) (l : list Q) :
  In y (insert x l) -> y = x \/ In y l.
Proof.
  induction l as [|z l IH]; simpl.
  - intros [H|[]]. now left.
  - destruct (Qle_bool x z); simpl.
    + intros [H|H]; [now left | now right].
    + intros [H|H]; [right; now left|].
      destruct (IH H) as [E|E]; [now left | right; now right].
Qed.

Lemma insert_length (x : Q) (l : list Q) :
  List.length (insert x l) = S (List.length l).
Proof.
  induction l as [|z l IH]; simpl; [reflexivity|].
  destruct (Qle_bool x z); simpl; [reflexivity | now rewrite IH].
Qed.

Lemma sort_length (l : list Q) : List.length (sort l) = List.length l.
Proof.
  induction l as [|x l IH]; simpl; [reflexivity|].
  unfold sort in *. simpl. now rewrite insert_length, IH.
Qed.

Lemma insert_Permutation (x : Q) (l : list Q) :
  Permutation (insert x l) (x :: l).
Proof.
  induction l as [|z l IH]; simpl; [apply Permutation_refl|].
  destruct (Qle_bool x z); [apply Permutation_refl|].
  eapply perm_trans; [apply perm_skip, IH | apply perm_swap].
Qed.

Lemma sort_Permutation (l : list Q) : Permutation (sort l) l.
Proof.
  induction l as [|x l IH]; [apply Permutation_refl|].
  unfold sort in *. simpl.
  eapply perm_trans; [apply insert_Permutation | now apply perm_skip].
Qed.

Lemma insert_sorted (x : Q) (l : list Q) :
  StronglySorted Qle l -> StronglySorted Qle (insert x l).
Proof.
  induction l as [|z l IH]; simpl; intros Hs.
  - constructor; constructor.
  - inversion Hs as [|? ? Hl Hz]; subst.
    destruct (Qle_bool x z) eqn:E.
    + apply Qle_bool_iff in E. constructor; [exact Hs|].
      constructor; [exact E|].
      rewrite Forall_forall in *. intros y Hy.
      apply Qle_trans with z; [exact E | now apply Hz].
    + assert (Hzx : (z <= x)%Q).
      { apply Qlt_le_weak, Qnot_le_lt. intros H.
        apply Qle_bool_iff in H. congruence. }
      constructor; [now apply IH|].
      rewrite Forall_forall in *. intros y Hy.
      destruct (insert_In _ _ _ Hy) as [->|Hin]; [exact Hzx | now apply Hz].
Qed.

Lemma sort_sorted (l : list Q) : StronglySorted Qle (sort l).
Proof.
  induction l as [|x l IH]; [constructor|].
  unfold sort in *. simpl. now apply insert_sorted.
Qed.

Lemma sorted_nth (s : list Q) :
  StronglySorted Qle s ->
  forall i j : nat, (i <= j < List.length s)%nat ->
  (nth i s 0 <= nth j s 0)%Q.
Proof.
  induction 1 as [|x s Hs IH Hx]; intros i j [Hij Hj]; simpl in Hj.
  - lia.
  - destruct i as [|i], j as [|j]; simpl.
    + apply Qle_refl.
    + rewrite Forall_forall in Hx. apply Hx, nth_In. lia.
    + lia.
    + apply IH. lia.
Qed.

Section Interpolation.

Variable s : list Q.
Hypothesis s_sorted : StronglySorted Qle s.
Hypothesis s_nonempty : (0 < List.length s)%nat.

Lemma floor_in_range (idx : Q) :
  (0 <= idx)%Q -> (idx <= inject_Z (Z.of_nat (List.length s)) - 1)%Q ->
  (0 <= Qfloor idx <= Z.of_nat (List.length s) - 1)%Z.
Proof.
  intros H0 H1. split.
  - change 0%Z with (Qfloor 0). now apply Qfloor_resp_le.
  - rewrite <- (Qfloor_Z (Z.of_nat (List.length s) - 1)).
    apply Qfloor_resp_le.
    unfold Z.sub. rewrite inject_Z_plus. simpl. exact H1.
Qed.

(** An interpolated value lies between its two bracketing elements. *)
Lemma interpolate_bracket (idx : Q) :
  (0 <= idx)%Q -> (idx <= inject_Z (Z.of_nat (List.length s)) - 1)%Q ->
  let i := Qfloor idx in
  (nth (Z.to_nat i) s 0 <= interpolate s idx)%Q /\
  (interpolate s idx
     <= nth (Z.to_nat (Z.min (i + 1) (Z.of_nat (List.length s) - 1))) s 0)%Q.
Proof.
  intros H0 H1 i. pose proof (floor_in_range idx H0 H1) as Hi.
  fold i in Hi. unfold interpolate, lerp. fold i.
  set (a := nth (Z.to_nat i) s 0%Q).
  set (b := nth (Z.to_nat (Z.min (i + 1) (Z.of_nat (List.length s) - 1)))
              s 0%Q).
  assert (Hab : (a <= b)%Q).
  { apply sorted_nth; [exact s_sorted|]. lia. }
  assert (Hg0 : (0 <= idx - inject_Z i)%Q).
  { pose proof (Qfloor_le idx) as H. fold i in H. lra. }
  assert (Hg1 : (idx - inject_Z i <= 1)%Q).
  { pose proof (Qlt_floor idx) as H. fold i in H.
    rewrite inject_Z_plus in H. change (inject_Z 1) with 1%Q in H. lra. }
  split; nra.
Qed.

(** Interpolation over sorted values is monotone in the position. *)
Lemma interpolate_mono (x y : Q) :
  (0 <= x)%Q -> (x <= y)%Q -> (y <= inject_Z (Z.of_nat (List.length s)) - 1)%Q ->
  (interpolate s x <= interpolate s y)%Q.
Proof.
  intros H0 Hxy H1.
  assert (Hx1 : (x <= inject_Z (Z.of_nat (List.length s)) - 1)%Q) by lra.
  assert (Hy0 : (0 <= y)%Q) by lra.
  pose proof (floor_in_range x H0 Hx1) as Hi.
  pose proof (floor_in_range y Hy0 H1) as Hj.
  pose proof (Qfloor_resp_le x y Hxy) as Hij.
  destruct (Z.eq_dec (Qfloor x) (Qfloor y)) as [E|E].
  - unfold interpolate, lerp. rewrite <- E.
    set (i := Qfloor x) in *.
    set (a := nth (Z.to_nat i) s 0%Q).
    set (b := nth (Z.to_nat (Z.min (i + 1) (Z.of_nat (List.length s) - 1)))
                s 0%Q).
    assert (Hab : (a <= b)%Q).
    { apply sorted_nth; [exact s_sorted|]. lia. }
    nra.
  - destruct (interpolate_bracket x H0 Hx1) as [_ Hup].
    destruct (interpolate_bracket y Hy0 H1) as [Hlow _].
    simpl in Hup, Hlow.
    eapply Qle_trans; [exact Hup|].
    eapply Qle_trans; [|exact Hlow].
    apply sorted_nth; [exact s_sorted|]. lia.
Qed.

End Interpolation.

(** ** Percentiles *)

Lemma fle_Fin (a b : Q) : fle (Fin a) (Fin b) = true <-> (a <= b)%Q.
Proof. apply Qle_bool_iff. Qed.

Lemma flt_Fin (a b : Q) : flt (Fin a) (Fin b) = true <-> (a < b)%Q.
Proof.
  unfold flt, Qlt_bool. rewrite negb_true_iff. split.
  - intros H. apply Qnot_le_lt. intros Hle.
    apply Qle_bool_iff in Hle. congruence.
  - intros H. destruct (Qle_bool b a) eqn:E; [|reflexivity].
    apply Qle_bool_iff in E. exfalso. apply (Qlt_not_le _ _ H E).
Qed.

Lemma finite_values_Some (a : list pyfloat) :
  Forall (fun v => isnan v = false) a ->
  exists qs, finite_values a = Some qs /\ map Fin qs = a.
Proof.
  induction 1 as [|v a Hv _ IH]; simpl.
  - now exists [].
  - destruct IH as [qs [Hqs Hmap]].
    destruct v as [|q]; [discriminate Hv|].
    rewrite Hqs. exists (q :: qs). simpl. now rewrite Hmap.
Qed.

Lemma clean_no_nan (df : list row) :
  Forall (fun v => isnan v = false) (column_value (positive (dropna df))).
Proof.
  rewrite column_value_clean. apply Forall_forall. intros v Hv.
  apply filter_In in Hv. destruct Hv as [_ Hv].
  apply andb_prop in Hv. destruct Hv as [Hv _].
  now apply negb_true_iff in Hv.
Qed.

Lemma virtual_index_range (n : nat) (p1 p2 : Q) :
  (0 < n)%nat -> (0 <= p1)%Q -> (p1 <= p2)%Q -> (p2 <= 100)%Q ->
  (0 <= virtual_index n p1)%Q /\
  (virtual_index n p1 <= virtual_index n p2)%Q /\
  (virtual_index n p2 <= inject_Z (Z.of_nat n) - 1)%Q.
Proof.
  intros Hn H0 H12 H100. unfold virtual_index.
  assert (Hn1 : (1 <= inject_Z (Z.of_nat n))%Q).
  { change 1%Q with (inject_Z 1). rewrite <- Zle_Qle. lia. }
  set (t := (inject_Z (Z.of_nat n) - 1)%Q).
  assert (Ht : (0 <= t)%Q) by (unfold t; lra).
  unfold Qdiv. change (/ 100)%Q with (1 # 100)%Q.
  repeat split; nra.
Qed.

(** On a non-empty column without NaN, [np.percentile] returns a number
    for every percentile: the interpolation over a sorted rearrangement of
    the column; and it is monotone in the percentile. *)
Lemma np_percentile_mono (a : list pyfloat) (p1 p2 : Q) :
  a <> [] -> Forall (fun v => isnan v = false) a ->
  (0 <= p1)%Q -> (p1 <= p2)%Q -> (p2 <= 100)%Q ->
  exists (s : list Q) (lo hi : Q),
    Permutation (map Fin s) a /\ StronglySorted Qle s /\
    lo = interpolate s (p1 / 100 * (inject_Z (Z.of_nat (List.length s)) - 1)) /\
    hi = interpolate s (p2 / 100 * (inject_Z (Z.of_nat (List.length s)) - 1)) /\
    np_percentile a p1 = Returns (Fin lo) /\
    np_percentile a p2 = Returns (Fin hi) /\
    (lo <= hi)%Q.
Proof.
  intros Hne Hfin H0 H12 H100.
  destruct (finite_values_Some a Hfin) as [qs [Hqs Hmap]].
  assert (Hlen : (0 < List.length (sort qs))%nat).
  { rewrite sort_length. destruct qs; [|simpl; lia].
    simpl in Hmap. congruence. }
  destruct (virtual_index_range _ p1 p2 Hlen H0 H12 H100) as [Ha [Hb Hc]].
  exists (sort qs).
  exists (interpolate (sort qs) (virtual_index (List.length (sort qs)) p1)).
  exists (interpolate (sort qs) (virtual_index (List.length (sort qs)) p2)).
  split.
  { rewrite <- Hmap. apply Permutation_map, sort_Permutation. }
  split; [apply sort_sorted|].
  split; [reflexivity|]. split; [reflexivity|].
  unfold np_percentile. destruct a as [|v a]; [congruence|].
  rewrite Hqs. split; [reflexivity|]. split; [reflexivity|].
  apply interpolate_mono; try assumption. apply sort_sorted.
Qed.

(** C5.  For every non-empty cleaned column the 33rd and the 66th
    percentile are numbers, each the linear interpolation at position
    [p/100 * (n-1)] of the sorted values, and the first is at most the
    second. *)
Theorem cutoffs_ordered (df : list row) :
  column_value (positive (dropna df)) <> [] ->
  exists (s : list Q) (lowCut highCut : Q),
    Permutation (map Fin s) (column_value (positive (dropna df))) /\
    StronglySorted Qle s /\
    lowCut
      = interpolate s (33 / 100 * (inject_Z (Z.of_nat (List.length s)) - 1)) /\
    highCut
      = interpolate s (66 / 100 * (inject_Z (Z.of_nat (List.length s)) - 1)) /\
    np_percentile (column_value (positive (dropna df))) 33
      = Returns (Fin lowCut) /\
    np_percentile (column_value (positive (dropna df))) 66
      = Returns (Fin highCut) /\
    (lowCut <= highCut)%Q /\
    fle (Fin lowCut) (Fin highCut) = true.
Proof.
  intros Hne.
  destruct (np_percentile_mono _ 33 66 Hne (clean_no_nan df))
    as [s [lo [hi [Hp [Hs [Hlo [Hhi [E1 [E2 Hle]]]]]]]]]; try lra.
  exists s, lo, hi. repeat split; try assumption.
  now apply fle_Fin.
Qed.

Lemma cutoffs_ordered_witness :
  column_value (positive (dropna [mkRow "01001" (Fin 7) None;
                                  mkRow "01003" (Fin 3) None])) <> [] /\
  exists lowCut highCut : Q,
    np_percentile [Fin 7; Fin 3] 33 = Returns (Fin lowCut) /\
    np_percentile [Fin 7; Fin 3] 66 = Returns (Fin highCut) /\
    (lowCut <= highCut)%Q.
Proof.
  assert (H : column_value (positive (dropna [mkRow "01001" (Fin 7) None;
                                              mkRow "01003" (Fin 3) None]))
              <> []) by (simpl; discriminate).
  split; [exact H|].
  destruct (cutoffs_ordered _ H)
    as [s [lo [hi [_ [_ [_ [_ [E1 [E2 [Hle _]]]]]]]]]].
  exists lo, hi. repeat split; assumption.
Defined.

(** ** Classification *)

Ltac cmp_to_Q :=
  repeat match goal with
         | H : _ /\ _ |- _ => destruct H
         | H : fle (Fin _) (Fin _) = true |- _ => apply fle_Fin in H
         | H : flt (Fin _) (Fin _) = true |- _ => apply flt_Fin in H
         | |- fle (Fin _) (Fin _) = true => apply fle_Fin
         | |- flt (Fin _) (Fin _) = true => apply flt_Fin
         end.

Lemma categorize_value_spec (lo hi : Q) (v : pyfloat) :
  (lo <= hi)%Q ->
  isnan v = false ->
  (categorize_value (Fin lo) (Fin hi) v = LowImpact
     <-> fle v (Fin lo) = true) /\
  (categorize_value (Fin lo) (Fin hi) v = MediumImpact
     <-> flt (Fin lo) v = true /\ fle v (Fin hi) = true) /\
  (categorize_value (Fin lo) (Fin hi) v = HighImpact
     <-> fgt v (Fin hi) = true).
Proof.
  intros Hle Hv. destruct v as [|q]; [discriminate Hv|].
  unfold categorize_value, fgt.
  destruct (Qlt_le_dec lo q) as [H1|H1];
    destruct (Qlt_le_dec hi q) as [H2|H2].
  - assert (E1 : fle (Fin q) (Fin lo) = false).
    { destruct (fle (Fin q) (Fin lo)) eqn:E; [cmp_to_Q; lra | reflexivity]. }
    assert (E2 : fle (Fin q) (Fin hi) = false).
    { destruct (fle (Fin q) (Fin hi)) eqn:E; [cmp_to_Q; lra | reflexivity]. }
    rewrite E1, E2.
    repeat split; intros; cmp_to_Q; try reflexivity; try discriminate; lra.
  - assert (E1 : fle (Fin q) (Fin lo) = false).
    { destruct (fle (Fin q) (Fin lo)) eqn:E; [cmp_to_Q; lra | reflexivity]. }
    assert (E2 : fle (Fin q) (Fin hi) = true) by (cmp_to_Q; exact H2).
    rewrite E1, E2.
    repeat split; intros; cmp_to_Q; try reflexivity; try discriminate; lra.
  - lra.
  - assert (E1 : fle (Fin q) (Fin lo) = true) by (cmp_to_Q; exact H1).
    rewrite E1.
    repeat split; intros; cmp_to_Q; try reflexivity; try discriminate; lra.
Qed.

Lemma feq_fle (x y : pyfloat) : feq x y = true -> fle x y = true.
Proof.
  destruct x as [|a], y as [|b]; simpl; try discriminate.
  intros H. apply Qeq_bool_iff in H. apply Qle_bool_iff. lra.
Qed.

(** A successful run has a non-empty cleaned column and ordered, finite
    cut-offs. *)
Lemma classified_frame_cutoffs data metric_option state c :
  classified_frame data metric_option state = Returns c ->
  exists lo hi : Q,
    c_low c = Fin lo /\ c_high c = Fin hi /\ (lo <= hi)%Q /\
    forall r, In r (c_df c) ->
      isnan (r_value r) = false /\
      r_category r
        = Some (categorize_value (Fin lo) (Fin hi) (r_value r)).
Proof.
  intros H. apply classified_frame_Returns in H.
  destruct H as [values [strs [df [_ [_ [_ [Hlo [Hhi Hdf]]]]]]]].
  assert (Hne : column_value (positive (dropna df)) <> []).
  { intros E. rewrite E in Hlo. discriminate Hlo. }
  destruct (np_percentile_mono _ 33 66 Hne (clean_no_nan df))
    as [s [lo [hi [_ [_ [_ [_ [E1 [E2 Hle]]]]]]]]]; try lra.
  assert (Elo : c_low c = Fin lo) by congruence.
  assert (Ehi : c_high c = Fin hi) by congruence.
  exists lo, hi. repeat split; try assumption.
  - rewrite Hdf in H. apply in_map_iff in H.
    destruct H as [r0 [<- Hin]]. simpl.
    pose proof (clean_no_nan df) as Hall. rewrite Forall_forall in Hall.
    apply Hall. unfold column_value. now apply in_map.
  - rewrite Hdf in H. apply in_map_iff in H.
    destruct H as [r0 [<- Hin]]. simpl. now rewrite Elo, Ehi.
Qed.

Lemma fips_strings_total (fips : list pyfloat) :
  Forall (fun x => isnan x = false) fips ->
  exists strs,
    fips_strings fips = Returns strs /\ List.length strs = List.length fips.
Proof.
  induction 1 as [|x fips Hx _ IH]; simpl.
  - now exists [].
  - destruct x as [|q]; [discriminate Hx|]. simpl.
    destruct IH as [strs [-> Hlen]].
    eexists. split; [reflexivity|]. simpl. now rewrite Hlen.
Qed.

Lemma map_snd_combine {A B} (l : list A) (l' : list B) :
  List.length l = List.length l' -> map snd (combine l l') = l'.
Proof.
  revert l'. induction l as [|a l IH]; intros [|b l']; simpl;
    try discriminate; intros H; [reflexivity|].
  f_equal. apply IH. now injection H.
Qed.

Lemma column_value_DataFrame strs values df :
  DataFrame strs values = Returns df -> column_value df = values.
Proof.
  unfold DataFrame.
  destruct (Nat.eqb_spec (List.length strs) (List.length values)) as [E|_];
    [|discriminate].
  intros [= <-]. unfold column_value. rewrite map_map. simpl.
  now apply map_snd_combine.
Qed.

(** The frame is produced whenever the metric is one of the three, no
    county code is NaN, the two arrays have one length and some value is a
    number above 0. *)
Lemma classified_frame_total data metric_option state values :
  getitem (metric_map data) metric_option = Returns values ->
  Forall (fun x => isnan x = false) (CountyFIPS data) ->
  List.length (CountyFIPS data) = List.length values ->
  Exists (fun v => fgt v (of_int 0) = true) values ->
  exists c, classified_frame data metric_option state = Returns c.
Proof.
  intros Hv Hfips Hlen Hpos.
  destruct (fips_strings_total _ Hfips) as [strs [Hs Hl]].
  assert (Hd : exists df, DataFrame strs values = Returns df).
  { unfold DataFrame. rewrite Hl, Hlen, Nat.eqb_refl. now eexists. }
  destruct Hd as [df Hd].
  assert (Hne : column_value (positive (dropna df)) <> []).
  { rewrite column_value_clean, (column_value_DataFrame _ _ _ Hd).
    apply Exists_exists in Hpos. destruct Hpos as [v [Hin Hv0]].
    intros E.
    assert (Hf : In v (filter (fun v => negb (isnan v) && fgt v (of_int 0))
                         values)).
    { apply filter_In. split; [exact Hin|]. rewrite Hv0.
      now destruct v. }
    rewrite E in Hf. exact Hf. }
  destruct (np_percentile_mono _ 33 66 Hne (clean_no_nan df))
    as [s [lo [hi [_ [_ [_ [_ [E1 [E2 _]]]]]]]]]; try lra.
  unfold classified_frame. rewrite Hv. simpl. rewrite Hs. simpl.
  rewrite Hd. simpl. rewrite E1. simpl. rewrite E2. simpl. now eexists.
Qed.

(** C3.  A run over well-formed arrays with some value above 0 produces a
    frame.  In the frame a run produces, with the cut-offs the 33rd and 66th
    percentile of its values: a row is Low exactly when its value is at
    most the low cut-off, Medium exactly when it is above the low and at
    most the high cut-off, High exactly when it is above the high cut-off;
    a value equal to a cut-off is in the lower bucket.  For the values
    1, 1, 1, 1, 100 the four 1's are Low and 100 is High. *)
Theorem classification_buckets :
  (forall data metric_option state values,
     getitem (metric_map data) metric_option = Returns values ->
     Forall (fun x => isnan x = false) (CountyFIPS data) ->
     List.length (CountyFIPS data) = List.length values ->
     Exists (fun v => fgt v (of_int 0) = true) values ->
     exists c, classified_frame data metric_option state = Returns c) /\
  (forall data metric_option state c,
     classified_frame data metric_option state = Returns c ->
     np_percentile (column_value (c_df c)) 33 = Returns (c_low c) /\
     np_percentile (column_value (c_df c)) 66 = Returns (c_high c) /\
     forall r, In r (c_df c) ->
       (r_category r = Some LowImpact
          <-> fle (r_value r) (c_low c) = true) /\
       (r_category r = Some MediumImpact
          <-> flt (c_low c) (r_value r) = true /\
              fle (r_value r) (c_high c) = true) /\
       (r_category r = Some HighImpact
          <-> fgt (r_value r) (c_high c) = true) /\
       (feq (r_value r) (c_low c) = true ->
          r_category r = Some LowImpact) /\
       (feq (r_value r) (c_high c) = true ->
          r_category r
            = Some (if fle (r_value r) (c_low c) then LowImpact
                    else MediumImpact))) /\
  (exists c,
     classified_frame
       (mkData [] [Fin 1; Fin 1; Fin 1; Fin 1; Fin 100] []
          [Fin 1001; Fin 1003; Fin 1005; Fin 1007; Fin 1009])
       "carbon footprint" "USA" = Returns c /\
     c_df c = [mkRow "01001" (Fin 1) (Some LowImpact);
               mkRow "01003" (Fin 1) (Some LowImpact);
               mkRow "01005" (Fin 1) (Some LowImpact);
               mkRow "01007" (Fin 1) (Some LowImpact);
               mkRow "01009" (Fin 100) (Some HighImpact)] /\
     feq (c_low c) (Fin 1) = true /\ feq (c_high c) (Fin 1) = true).
Proof.
  split; [exact classified_frame_total|].
  split;
    [|eexists; split; [vm_compute; reflexivity | repeat split; reflexivity]].
  intros data metric_option state c H.
  destruct (classified_frame_cutoffs _ _ _ _ H)
    as [lo [hi [Elo [Ehi [Hle Hrows]]]]].
  apply classified_frame_Returns in H.
  destruct H as [values [strs [df [_ [_ [_ [Hlo [Hhi Hdf]]]]]]]].
  assert (Hcol : column_value (c_df c) = column_value (positive (dropna df))).
  { rewrite Hdf. apply column_value_categorized. }
  rewrite Hcol. split; [exact Hlo|]. split; [exact Hhi|].
  intros r Hr. destruct (Hrows r Hr) as [Hnan Hcat].
  destruct (categorize_value_spec lo hi (r_value r) Hle Hnan)
    as [HL [HM HH]].
  rewrite Elo, Ehi, Hcat.
  assert (Hinj : forall a b : category, Some a = Some b <-> a = b).
  { intros a b. split; [now intros [= ->] | now intros ->]. }
  rewrite !Hinj. split; [exact HL|]. split; [exact HM|]. split; [exact HH|].
  split.
  - intros E. f_equal. apply HL. now apply feq_fle.
  - intros E. apply feq_fle in E. f_equal.
    unfold categorize_value. rewrite E.
    now destruct (fle (r_value r) (Fin lo)).
Qed.

Lemma classification_buckets_witness :
  exists c,
    classified_frame
      (mkData [] [Fin 2; Fin 4; Fin 9] [] [Fin 1001; Fin 1003; Fin 1005])
      "carbon footprint" "Alabama" = Returns c /\
    np_percentile (column_value (c_df c)) 33 = Returns (c_low c) /\
    map r_category (c_df c)
      = [Some LowImpact; Some MediumImpact; Some HighImpact].
Proof.
  eexists. split; [vm_compute; reflexivity|].
  split.
  - apply (proj1 (proj2 classification_buckets)
             (mkData [] [Fin 2; Fin 4; Fin 9] []
                [Fin 1001; Fin 1003; Fin 1005])
             "carbon footprint" "Alabama").
    vm_compute. reflexivity.
  - reflexivity.
Defined.

(** ** The empty frame *)

(** C9, as the code has it.  When the frame is built and cleaning leaves
    no row, the percentile of the empty column raises [IndexError]; the
    function makes no call to the page and ends with that exception, so no
    (empty) frame is produced and nothing else is signalled. *)
Theorem empty_frame_raises data metric_option state values strs df :
  getitem (metric_map data) metric_option = Returns values ->
  fips_strings (CountyFIPS data) = Returns strs ->
  DataFrame strs values = Returns df ->
  positive (dropna df) = [] ->
  classified_frame data metric_option state = Raises IndexError /\
  create_environmental_map data metric_option state
    = ([], Raises IndexError).
Proof.
  intros Hv Hs Hd He.
  assert (H : classified_frame data metric_option state = Raises IndexError).
  { unfold classified_frame. rewrite Hv. simpl. rewrite Hs. simpl.
    rewrite Hd. simpl. rewrite He. reflexivity. }
  split; [exact H|].
  unfold create_environmental_map. rewrite H. reflexivity.
Qed.

Lemma empty_frame_raises_witness :
  create_environmental_map
    (mkData [] [Fin 0; NaN] [] [Fin 1001; Fin 1003]) "carbon footprint" "USA"
  = ([], Raises IndexError).
Proof.
  apply (empty_frame_raises
           (mkData [] [Fin 0; NaN] [] [Fin 1001; Fin 1003])
           "carbon footprint" "USA" [Fin 0; NaN] ["01001"; "01003"]
           [mkRow "01001" (Fin 0) None; mkRow "01003" NaN None]);
    reflexivity.
Defined.

(** C9, as the specification words it, fails: for a dataset whose two
    values are 0 and NaN no county remains, and the run ends with
    [IndexError]: it returns no frame, empty or not, and the exception is
    not [EmptyResult]. *)
Lemma empty_frame_not_signalled :
  let data := mkData [] [Fin 0; NaN] [] [Fin 1001; Fin 1003] in
  positive (dropna [mkRow "01001" (Fin 0) None; mkRow "01003" NaN None]) = [] /\
  create_environmental_map data "carbon footprint" "USA"
    = ([], Raises IndexError) /\
  (forall c, classified_frame data "carbon footprint" "USA" <> Returns c) /\
  result (create_environmental_map data "carbon footprint" "USA")
    <> Raises (Named "EmptyResult").
Proof.
  repeat split; try reflexivity; vm_compute; discriminate.
Qed.

(** ** The state selector *)

Lemma classified_frame_any_state data metric_option state state' :
  classified_frame data metric_option state
  = classified_frame data metric_option state'.
Proof. reflexivity. Qed.

(** C1 on the code.  The function does not read [state]: any selector
    gives the run of "USA".  With Alabama's code 01 and California's 06,
    the run for "Alabama" over one county of each state charts both, the
    second of which the filter for Alabama refuses. *)
Theorem state_selector_not_applied :
  (forall data metric_option state,
     create_environmental_map data metric_option state
     = create_environmental_map data metric_option "USA") /\
  calls (create_environmental_map
           (mkData [] [Fin 2; Fin 5] [] [Fin 1001; Fin 6037])
           "carbon footprint" "Alabama")
  = [StPlotlyChart
       [mkRow "01001" (Fin 2) (Some LowImpact);
        mkRow "06037" (Fin 5) (Some HighImpact)] "carbon footprint";
     StSubheader HStatistics;
     StMetric "Low Impact Counties" (Counties 1) (AtMost (Fin 2.99));
     StMetric "Medium Impact Counties" (Counties 0)
       (Between (Fin 2.99) (Fin 3.98));
     StMetric "High Impact Counties" (Counties 1) (Above (Fin 3.98))] /\
  county_filter [("Alabama", "01"); ("California", "06")] "Alabama" "01001"
    = true /\
  county_filter [("Alabama", "01"); ("California", "06")] "Alabama" "06037"
    = false.
Proof.
  split; [reflexivity|]. split; [vm_compute; reflexivity|].
  split; reflexivity.
Qed.

(** ** The facility figures *)

Lemma calls_bind {A B} (m : St A) (k : A -> St B) :
  calls (bind m k)
  = (calls m ++ match result m with
                | Returns a => calls (k a)
                | Raises _ => []
                end)%list.
Proof.
  destruct m as [w [a|e]]; simpl.
  - unfold calls. simpl. now destruct (k a).
  - unfold calls. simpl. now rewrite app_nil_r.
Qed.

Lemma quiet_bind {A B} (m : St A) (k : A -> St B) :
  quiet m -> (forall a, quiet (k a)) -> quiet (bind m k).
Proof.
  unfold quiet. intros Hm Hk. rewrite calls_bind, forallb_app, Hm. simpl.
  destruct (result m) as [a|e]; [apply Hk | reflexivity].
Qed.

Lemma quiet_ret {A} (a : A) : quiet (ret a).
Proof. reflexivity. Qed.

Lemma quiet_raise {A} (e : pyexn) : quiet (@raise A e).
Proof. reflexivity. Qed.

Lemma quiet_lift {A} (o : outcome A) : quiet (lift o).
Proof. reflexivity. Qed.

Lemma quiet_emit (c : st_call) : facility_call c = false -> quiet (emit c).
Proof. unfold quiet. simpl. now intros ->. Qed.

Create HintDb quiet.

#[local] Hint Resolve quiet_ret quiet_raise quiet_lift : quiet.
#[local] Hint Extern 1 (quiet (bind _ _)) =>
  apply quiet_bind; [|intros ?] : quiet.
#[local] Hint Extern 1 (quiet (emit _)) =>
  apply quiet_emit; reflexivity : quiet.

Lemma quiet_validate_numeric_input (value field_name : string) :
  quiet (validate_numeric_input value field_name).
Proof.
  unfold validate_numeric_input.
  destruct (negb (truthy (strip value))); [auto with quiet|].
  destruct (float_of_str value) as [x|]; [|auto with quiet].
  destruct (flt x (of_int 0)); auto with quiet.
Qed.

Lemma quiet_validate_if_provided (value field_name : string) :
  quiet (validate_if_provided value field_name).
Proof.
  unfold validate_if_provided.
  destruct (truthy (strip value)); [|auto with quiet].
  apply quiet_bind; [apply quiet_validate_numeric_input|].
  intros r. auto with quiet.
Qed.

Lemma quiet_create_environmental_map data metric_option state :
  quiet (create_environmental_map data metric_option state).
Proof.
  unfold create_environmental_map. auto 10 with quiet.
Qed.

Lemma quiet_main_col1 (w : widgets) : quiet (main_col1 w).
Proof.
  unfold main_col1.
  destruct (about w), (exit w); auto 10 with quiet.
Qed.

#[local] Hint Resolve quiet_validate_if_provided
  quiet_create_environmental_map quiet_main_col1 : quiet.

(** Unless both fields are filled in, a run of [main] makes no call of
    [calculate_facility_impact]. *)
Lemma quiet_main data (w : widgets) :
  truthy (strip (power_value w)) && truthy (strip (water_value w)) = false ->
  quiet (main data w).
Proof.
  intros H. unfold main, main_col2. rewrite H.
  destruct (make_plot w); [|auto 10 with quiet].
  apply quiet_bind; [auto with quiet|]. intros _.
  apply quiet_bind; [auto with quiet|]. intros _.
  apply quiet_bind; [auto with quiet|]. intros _.
  apply quiet_bind; [auto with quiet|]. intros p.
  apply quiet_bind; [auto with quiet|]. intros q.
  destruct (fst p && fst q); auto 10 with quiet.
Qed.

Lemma validate_if_provided_blank (value field_name : string) :
  truthy (strip value) = false ->
  validate_if_provided value field_name = ret (true, None).
Proof. unfold validate_if_provided. now intros ->. Qed.

Lemma validate_if_provided_filled (value field_name : string) :
  truthy (strip value) = true ->
  validate_if_provided value field_name
  = (r <- validate_numeric_input value field_name ;; ret (fst r, Some (snd r))).
Proof. unfold validate_if_provided. now intros ->. Qed.

(** C10.  A call of [calculate_facility_impact] in a run of [main] needs
    the plot button and both text fields non-blank.  With exactly one field
    filled in, the content block validates that field and, if it is valid,
    draws the map; it does nothing more, and no facility figure is
    shown. *)
Theorem facility_impact_needs_both_inputs data (w : widgets) :
  (existsb facility_call (calls (main data w)) = true ->
     truthy (strip (power_value w)) = true /\
     truthy (strip (water_value w)) = true) /\
  (make_plot w = true ->
   truthy (strip (power_value w)) = true ->
   truthy (strip (water_value w)) = false ->
     main_col2 data w
     = (r <- validate_numeric_input (power_value w) "Power consumption" ;;
        if fst r then
          create_environmental_map data (metric_option w) (state w)
        else ret tt) /\
     quiet (main data w)) /\
  (make_plot w = true ->
   truthy (strip (power_value w)) = false ->
   truthy (strip (water_value w)) = true ->
     main_col2 data w
     = (r <- validate_numeric_input (water_value w) "Water consumption" ;;
        if fst r then
          create_environmental_map data (metric_option w) (state w)
        else ret tt) /\
     quiet (main data w)).
Proof.
  split; [|split].
  - intros H.
    destruct (truthy (strip (power_value w))
              && truthy (strip (water_value w))) eqn:E.
    + now apply andb_prop in E.
    + exfalso. pose proof (quiet_main data w E) as Hq. unfold quiet in Hq.
      assert (Hn : existsb facility_call (calls (main data w)) = false).
      { clear H. induction (calls (main data w)) as [|c l IH];
          [reflexivity|].
        simpl in *. apply andb_prop in Hq. destruct Hq as [Hc Hl].
        apply negb_true_iff in Hc. rewrite Hc. simpl. now apply IH. }
      congruence.
  - intros Hm Hp Hw. split; [|apply quiet_main; now rewrite Hp, Hw].
    unfold main_col2. rewrite Hm, Hp, Hw.
    rewrite (validate_if_provided_blank _ _ Hw).
    rewrite (validate_if_provided_filled _ _ Hp).
    destruct (validate_numeric_input (power_value w) "Power consumption")
      as [wv [[ok x]|e]]; simpl; [|reflexivity].
    destruct ok; simpl; [|now rewrite !app_nil_r].
    destruct (create_environmental_map data (metric_option w) (state w))
      as [wm [[]|e]]; simpl; rewrite ?app_nil_r; reflexivity.
  - intros Hm Hp Hw. split; [|apply quiet_main; now rewrite Hp, Hw].
    unfold main_col2. rewrite Hm, Hp, Hw.
    rewrite (validate_if_provided_blank _ _ Hp).
    rewrite (validate_if_provided_filled _ _ Hw).
    destruct (validate_numeric_input (water_value w) "Water consumption")
      as [wv [[ok x]|e]]; simpl; [|reflexivity].
    destruct ok; simpl; [|now rewrite !app_nil_r].
    destruct (create_environmental_map data (metric_option w) (state w))
      as [wm [[]|e]]; simpl; rewrite ?app_nil_r; reflexivity.
Qed.

Lemma facility_impact_needs_both_inputs_witness :
  let w := mkWidgets "Alabama" "carbon footprint" "5" "kW" "  " "gpm"
             false true false in
  let data := mkData [] [Fin 2; Fin 5] [] [Fin 1001; Fin 6037] in
  truthy (strip (power_value w)) = true /\
  truthy (strip (water_value w)) = false /\
  main_col2 data w
  = (r <- validate_numeric_input (power_value w) "Power consumption" ;;
     if fst r then create_environmental_map data (metric_option w) (state w)
     else ret tt) /\
  quiet (main data w).
Proof.
  intros w data.
  split; [reflexivity|]. split; [reflexivity|].
  apply (proj1 (proj2 (facility_impact_needs_both_inputs data w)));
    reflexivity.
Defined.

(** With both fields filled in and valid, the facility figures are shown:
    5 kW and 2 gpm give 43800 kWh/year and 2 * 525600 * 3.78541 L/year. *)
Example main_both_inputs :
  let w := mkWidgets "USA" "carbon footprint" "5" "kW" "2" "gpm"
             false true false in
  let data := mkData [] [Fin 2; Fin 5] [] [Fin 1001; Fin 6037] in
  existsb facility_call (calls (main data w)) = true /\
  In (StMetric "Annual Power Consumption"
        (PerYear (PyFloat (Fin 43800)) "kWh/year") (From (Fin 5) "kW"))
     (calls (main data w)) /\
  In (StMetric "Annual Water Consumption"
        (PerYear (PyFloat (Fin (2 * 525600 * 3.78541))) "L/year") (From (Fin 2) "gpm"))
     (calls (main data w)).
Proof.
  intros w data. split; [vm_compute; reflexivity|].
  split; vm_compute; repeat (first [left; reflexivity | right]).
Qed.

(* ================================================================== *)
(** * Further properties of the code *)

(** ** Input validation *)

Lemma blank_lstrip (s : string) : blank (lstrip s) = true -> blank s = true.
Proof.
  induction s as [|c r IH]; simpl; [reflexivity|].
  destruct (is_space c) eqn:E; simpl.
  - exact IH.
  - rewrite E. simpl. discriminate.
Qed.

Lemma rstrip_empty (s : string) : rstrip s = "" -> blank s = true.
Proof.
  induction s as [|c r IH]; simpl; [reflexivity|].
  destruct (rstrip r) as [|c' r'] eqn:E.
  - destruct (is_space c); [intros _; now rewrite IH | discriminate].
  - discriminate.
Qed.

Lemma strip_empty_iff (s : string) : strip s = "" <-> blank s = true.
Proof.
  split; [|apply strip_blank].
  intros H. apply blank_lstrip, rstrip_empty. exact H.
Qed.

Lemma truthy_strip (s : string) :
  truthy (strip s) = negb (blank s).
Proof.
  destruct (blank s) eqn:E.
  - now rewrite (strip_blank s E).
  - destruct (strip s) eqn:Es; [|reflexivity].
    apply strip_empty_iff in Es. congruence.
Qed.





(** ** Unit conversion *)

Ltac by_unit u :=
  repeat match goal with
         | |- context [u =? ?k] => destruct (u =? k)
         end.

(** Both conversions are monotone on numbers and send 0 to 0, for every
    unit tag: a consumption that is not negative is never converted to a
    negative one. *)
Theorem conversions_monotone (unit : string) (q1 q2 : Q) :
  (q1 <= q2)%Q ->
  fle (to_float (convert_power_to_kwh_per_year (Fin q1) unit))
      (to_float (convert_power_to_kwh_per_year (Fin q2) unit)) = true /\
  fle (to_float (convert_water_to_liters_per_year (Fin q1) unit))
      (to_float (convert_water_to_liters_per_year (Fin q2) unit)) = true /\
  py_eq (convert_power_to_kwh_per_year (Fin 0) unit) (PyInt 0) = true /\
  py_eq (convert_water_to_liters_per_year (Fin 0) unit) (PyInt 0) = true.
Proof.
  intros H.
  unfold convert_power_to_kwh_per_year, convert_water_to_liters_per_year,
    py_eq.
  by_unit unit; simpl; unfold of_int; simpl;
    repeat split;
    try (apply Qle_bool_iff); try (apply Qeq_bool_iff);
    unfold inject_Z; try lra; try reflexivity.
Qed.

Lemma conversions_monotone_witness :
  (2 <= 5)%Q /\
  fle (to_float (convert_power_to_kwh_per_year (Fin 2) "MW"))
      (to_float (convert_power_to_kwh_per_year (Fin 5) "MW")) = true.
Proof.
  assert (H : (2 <= 5)%Q) by (unfold Qle; simpl; lia).
  split; [exact H|].
  exact (proj1 (conversions_monotone "MW" 2 5 H)).
Defined.


(** ** County identifiers *)




Lemma holds_from_spec (check : Z -> bool) (n : nat) (z : Z) :
  holds_from check n z = true ->
  forall y, (z <= y < z + Z.of_nat n)%Z -> check y = true.
Proof.
  revert z. induction n as [|n IH]; intros z H y Hy; [lia|].
  simpl in H. apply andb_prop in H. destruct H as [Hz Hn].
  destruct (Z.eq_dec y z) as [->|Hne]; [exact Hz|].
  apply (IH (z + 1)%Z Hn). lia.
Qed.

(** Every code from 0 to 99999 gets an identifier of five characters that
    reads back, as a decimal numeral, as the code. *)
Lemma fips_identifier_check :
  holds_from fips_identifier_ok (Z.to_nat 100000) 0 = true.
Proof. vm_compute. reflexivity. Qed.

Lemma fips_identifier (z : Z) :
  (0 <= z <= 99999)%Z ->
  String.length (zfill 5 (str_of_int z)) = 5%nat /\
  option_map Z.of_int (NilZero.int_of_string (zfill 5 (str_of_int z)))
    = Some z.
Proof.
  intros Hz.
  pose proof (holds_from_spec _ _ _ fips_identifier_check z) as H.
  rewrite Z2Nat.id in H by lia. specialize (H ltac:(lia)).
  unfold fips_identifier_ok in H.
  apply andb_prop in H. destruct H as [H1 H2].
  split; [now apply Nat.eqb_eq|].
  destruct (option_map Z.of_int
              (NilZero.int_of_string (zfill 5 (str_of_int z)))) as [y|];
    [|discriminate].
  apply Z.eqb_eq in H2. now rewrite H2.
Qed.

Lemma fips_strings_integers (zs : list Z) :
  fips_strings (map of_int zs)
  = Returns (map (fun z => zfill 5 (str_of_int z)) zs).
Proof.
  induction zs as [|z zs IH]; simpl; [reflexivity|].
  rewrite IH. now rewrite Z.quot_1_r.
Qed.

(** County codes that are integers from 0 to 99999 all get an identifier of
    exactly five characters, one per code and in the order of the codes,
    and distinct codes get distinct identifiers. *)
Theorem fips_strings_five_digits (zs : list Z) :
  Forall (fun z => (0 <= z <= 99999)%Z) zs ->
  exists strs,
    fips_strings (map of_int zs) = Returns strs /\
    List.length strs = List.length zs /\
    Forall (fun s => String.length s = 5%nat) strs /\
    (forall i z, nth_error zs i = Some z ->
       nth_error strs i = Some (zfill 5 (str_of_int z))) /\
    (NoDup zs -> NoDup strs).
Proof.
  intros Hzs. exists (map (fun z => zfill 5 (str_of_int z)) zs).
  split; [apply fips_strings_integers|].
  split; [apply length_map|].
  rewrite Forall_forall in Hzs.
  split; [|split].
  - apply Forall_forall. intros s Hs. apply in_map_iff in Hs.
    destruct Hs as [z [<- Hz]]. now apply fips_identifier, Hzs.
  - intros i z Hi. rewrite nth_error_map, Hi. reflexivity.
  - apply NoDup_map_NoDup_ForallPairs. intros x y Hx Hy E.
    pose proof (proj2 (fips_identifier x (Hzs x Hx))) as Ex.
    pose proof (proj2 (fips_identifier y (Hzs y Hy))) as Ey.
    rewrite E in Ex. congruence.
Qed.

Lemma fips_strings_five_digits_witness :
  Forall (fun z => (0 <= z <= 99999)%Z) [1001; 6037; 56045]%Z /\
  fips_strings [Fin 1001; Fin 6037; Fin 56045]
    = Returns ["01001"; "06037"; "56045"].
Proof.
  assert (H : Forall (fun z => (0 <= z <= 99999)%Z) [1001; 6037; 56045]%Z)
    by (repeat constructor; lia).
  split; [exact H|].
  destruct (fips_strings_five_digits _ H) as [strs [E _]].
  reflexivity.
Defined.


Lemma fips_strings_Raises (fips : list pyfloat) (e : pyexn) :
  fips_strings fips = Raises e ->
  e = ValueError /\ Exists (fun x => isnan x = true) fips.
Proof.
  induction fips as [|x fips IH]; simpl; intros H; [discriminate|].
  destruct x as [|q]; simpl in H.
  - injection H as <-. split; [reflexivity | now left].
  - destruct (fips_strings fips) as [l|e']; [discriminate|].
    injection H as <-. destruct (IH eq_refl) as [-> Hex].
    split; [reflexivity | now right].
Qed.

(** ** The run of the map: when it is drawn and how it fails *)



Lemma create_environmental_map_Raises data m state e :
  classified_frame data m state = Raises e ->
  create_environmental_map data m state = ([], Raises e).
Proof.
  intros H. unfold create_environmental_map. now rewrite H.
Qed.




Lemma classified_frame_Raises data (m state : string) (e : pyexn) :
  classified_frame data m state = Raises e ->
  In e [KeyError; ValueError; IndexError].
Proof.
  intros E. unfold classified_frame in E.
  destruct (getitem (metric_map data) m) as [values|e1] eqn:E1.
  - simpl in E.
    destruct (fips_strings (CountyFIPS data)) as [strs|e2] eqn:E2.
    + simpl in E. unfold DataFrame in E.
      destruct (List.length strs =? List.length values)%nat; simpl in E.
      * match type of E with
        | context [np_percentile ?a 33] => destruct a as [|v l] eqn:Ea
        end.
        -- simpl in E. injection E as <-. simpl; auto.
        -- exfalso. unfold np_percentile in E.
           destruct (finite_values (v :: l)); simpl in E; discriminate E.
      * injection E as <-. simpl; auto.
    + simpl in E. injection E as <-.
      apply fips_strings_Raises in E2. destruct E2 as [-> _]. simpl; auto.
  - simpl in E. injection E as <-.
    assert (He : e1 = KeyError).
    { clear -E1. unfold metric_map in E1. cbn [getitem] in E1.
      repeat match type of E1 with
             | context [if ?b then _ else _] => destruct b
             end; congruence. }
    subst. simpl; auto.
Qed.




(** ** The frame *)

Lemma pairs_filter (f : pyfloat -> bool) (df : list row) :
  pairs (filter (fun r => f (r_value r)) df)
  = filter (fun fv => f (snd fv)) (pairs df).
Proof.
  induction df as [|r df IH]; simpl; [reflexivity|].
  destruct (f (r_value r)); simpl; now rewrite IH.
Qed.

Lemma pairs_DataFrame strs values df :
  DataFrame strs values = Returns df -> pairs df = combine strs values.
Proof.
  unfold DataFrame.
  destruct (List.length strs =? List.length values)%nat; [|discriminate].
  intros [= <-]. unfold pairs. rewrite map_map. simpl.
  rewrite <- (map_id (combine strs values)) at 2.
  apply map_ext. now intros [a b].
Qed.

(** The rows of the frame are the pairs (identifier, value) taken at the
    same position of the two arrays, those with a value above 0 and no
    others, in the order of the arrays. *)
Theorem frame_joins_by_position data (m state : string) (c : classified) :
  classified_frame data m state = Returns c ->
  exists values strs,
    getitem (metric_map data) m = Returns values /\
    fips_strings (CountyFIPS data) = Returns strs /\
    List.length strs = List.length values /\
    pairs (c_df c)
    = filter (fun fv => fgt (snd fv) (of_int 0)) (combine strs values).
Proof.
  intros H. apply classified_frame_Returns in H.
  destruct H as [values [strs [df [Hv [Hs [Hd [_ [_ Hdf]]]]]]]].
  exists values, strs. split; [exact Hv|]. split; [exact Hs|].
  split.
  { unfold DataFrame in Hd.
    destruct (Nat.eqb_spec (List.length strs) (List.length values));
      [assumption | discriminate]. }
  rewrite Hdf. unfold pairs at 1. rewrite map_map. simpl.
  change (map (fun r => (r_fips r, r_value r)) (positive (dropna df)))
    with (pairs (positive (dropna df))).
  unfold positive, dropna.
  rewrite (pairs_filter (fun v => fgt v (of_int 0))).
  rewrite (pairs_filter (fun v => negb (isnan v))).
  rewrite filter_filter, (pairs_DataFrame _ _ _ Hd).
  apply filter_ext. intros [s v]. simpl. now destruct v.
Qed.

Lemma frame_joins_by_position_witness :
  exists c,
    classified_frame
      (mkData [] [Fin 2; Fin 0; Fin 9] [] [Fin 1001; Fin 1003; Fin 1005])
      "carbon footprint" "USA" = Returns c /\
    pairs (c_df c) = [("01001", Fin 2); ("01005", Fin 9)].
Proof.
  eexists. split; [vm_compute; reflexivity|].
  destruct (frame_joins_by_position
              (mkData [] [Fin 2; Fin 0; Fin 9] []
                 [Fin 1001; Fin 1003; Fin 1005])
              "carbon footprint" "USA" _ eq_refl) as [values [strs _]].
  reflexivity.
Defined.

Lemma count_category_total (df : list row) :
  Forall (fun r => r_category r <> None) df ->
  (count_category LowImpact df + count_category MediumImpact df
   + count_category HighImpact df)%nat = List.length df.
Proof.
  unfold count_category.
  induction 1 as [|r df Hr _ IH]; simpl; [reflexivity|].
  destruct (r_category r) as [[]|]; simpl; try congruence; lia.
Qed.


(** The three tiles count every county of the chart once: the numbers of
    Low, Medium and High counties add up to the number of rows drawn. *)
Theorem statistics_partition data (m state : string) (c : classified) :
  classified_frame data m state = Returns c ->
  (count_category LowImpact (c_df c) + count_category MediumImpact (c_df c)
   + count_category HighImpact (c_df c))%nat = List.length (c_df c) /\
  create_environmental_map data m state
  = ([StPlotlyChart (c_df c) m; StSubheader HStatistics;
      StMetric "Low Impact Counties"
        (Counties (count_category LowImpact (c_df c))) (AtMost (c_low c));
      StMetric "Medium Impact Counties"
        (Counties (count_category MediumImpact (c_df c)))
        (Between (c_low c) (c_high c));
      StMetric "High Impact Counties"
        (Counties (count_category HighImpact (c_df c))) (Above (c_high c))],
     Returns tt).
Proof.
  intros H. split.
  - apply count_category_total.
    destruct (classified_frame_cutoffs _ _ _ _ H)
      as [lo [hi [_ [_ [_ Hrows]]]]].
    apply Forall_forall. intros r Hr.
    destruct (Hrows r Hr) as [_ Hc]. rewrite Hc. discriminate.
  - unfold create_environmental_map. rewrite H. reflexivity.
Qed.

Lemma statistics_partition_witness :
  exists c,
    classified_frame
      (mkData [] [Fin 2; Fin 4; Fin 9] [] [Fin 1001; Fin 1003; Fin 1005])
      "carbon footprint" "USA" = Returns c /\
    (count_category LowImpact (c_df c) + count_category MediumImpact (c_df c)
     + count_category HighImpact (c_df c))%nat = 3%nat.
Proof.
  eexists. split; [vm_compute; reflexivity|].
  exact (proj1 (statistics_partition
                  (mkData [] [Fin 2; Fin 4; Fin 9] []
                     [Fin 1001; Fin 1003; Fin 1005])
                  "carbon footprint" "USA" _ eq_refl)).
Defined.







Lemma categorize_value_monotone (lo hi : pyfloat) (q1 q2 : Q) :
  (q1 <= q2)%Q ->
  (category_rank (categorize_value lo hi (Fin q1))
   <= category_rank (categorize_value lo hi (Fin q2)))%nat.
Proof.
  intros H. unfold categorize_value.
  destruct lo as [|l], hi as [|h]; simpl;
    repeat match goal with
           | |- context [Qle_bool ?a ?b] =>
               let E := fresh "E" in
               destruct (Qle_bool a b) eqn:E;
               [apply Qle_bool_iff in E|]
           end; simpl; try lia;
    exfalso;
    repeat match goal with
           | E : Qle_bool ?a ?b = false |- _ =>
               assert (~ (a <= b)%Q)
                 by (intros ?F; apply Qle_bool_iff in F; congruence);
               clear E
           end; lra.
Qed.

(** The buckets follow the values: of two charted counties, the one with
    the larger value is never in a lower bucket. *)
Theorem classification_monotone data (m state : string) (c : classified)
    (r1 r2 : row) :
  classified_frame data m state = Returns c ->
  In r1 (c_df c) -> In r2 (c_df c) ->
  fle (r_value r1) (r_value r2) = true ->
  exists k1 k2,
    r_category r1 = Some k1 /\ r_category r2 = Some k2 /\
    (category_rank k1 <= category_rank k2)%nat.
Proof.
  intros H Hr1 Hr2 Hle.
  destruct (classified_frame_cutoffs _ _ _ _ H)
    as [lo [hi [_ [_ [_ Hrows]]]]].
  destruct (Hrows r1 Hr1) as [_ Hc1]. destruct (Hrows r2 Hr2) as [_ Hc2].
  do 2 eexists. split; [exact Hc1|]. split; [exact Hc2|].
  destruct (r_value r1) as [|q1], (r_value r2) as [|q2];
    try discriminate.
  apply categorize_value_monotone. now apply fle_Fin.
Qed.

Lemma classification_monotone_witness :
  exists c r1 r2,
    classified_frame
      (mkData [] [Fin 2; Fin 4; Fin 9] [] [Fin 1001; Fin 1003; Fin 1005])
      "carbon footprint" "USA" = Returns c /\
    In r1 (c_df c) /\ In r2 (c_df c) /\
    exists k1 k2,
      r_category r1 = Some k1 /\ r_category r2 = Some k2 /\
      (category_rank k1 <= category_rank k2)%nat.
Proof.
  eexists. exists (mkRow "01001" (Fin 2) (Some LowImpact)).
  exists (mkRow "01005" (Fin 9) (Some HighImpact)).
  split; [vm_compute; reflexivity|].
  split; [simpl; auto|]. split; [simpl; auto|].
  apply (classification_monotone
           (mkData [] [Fin 2; Fin 4; Fin 9] []
              [Fin 1001; Fin 1003; Fin 1005])
           "carbon footprint" "USA" _ _ _ eq_refl);
    [simpl; auto | simpl; auto | reflexivity].
Defined.

(** ** The page *)

Lemma validate_if_provided_cases (value field_name : string) :
  exists ok x w,
    validate_if_provided value field_name = (w, Returns (ok, x)) /\
    (w = [] \/ ok = false /\ exists msg, w = [StError msg]) /\
    (x = None <-> blank value = true) /\
    (blank value = true -> ok = true /\ w = []).
Proof.
  unfold validate_if_provided, validate_numeric_input.
  rewrite truthy_strip. destruct (blank value); simpl.
  - exists true, None, []. repeat split; auto; discriminate.
  - destruct (float_of_str value) as [y|].
    + destruct (flt y (of_int 0)); simpl.
      * exists false, (Some (of_int 0)). eexists.
        split; [reflexivity|].
        repeat split; try discriminate. right. split; [reflexivity|].
        now eexists.
      * exists true, (Some y), []. repeat split; auto; discriminate.
    + simpl. exists false, (Some (of_int 0)). eexists.
      split; [reflexivity|].
      repeat split; try discriminate. right. split; [reflexivity|].
      now eexists.
Qed.

Lemma main_col1_cases (w : widgets) :
  exists l,
    forallb (fun c => negb (is_chart c) && negb (is_error c)) l = true /\
    main_col1 w
    = (l, if exit w then Raises StopException else Returns tt).
Proof.
  unfold main_col1. destruct (about w), (exit w); simpl;
    eexists; split; try reflexivity; reflexivity.
Qed.

Lemma create_environmental_map_cases data (m state : string) :
  exists l o,
    create_environmental_map data m state = (l, o) /\
    forallb (fun c => negb (is_error c)) l = true /\
    match o with
    | Returns _ => True
    | Raises e => l = [] /\ In e [KeyError; ValueError; IndexError]
    end.
Proof.
  destruct (classified_frame data m state) as [c|e] eqn:E.
  - unfold create_environmental_map. rewrite E.
    do 2 eexists. split; [reflexivity|]. split; [reflexivity | exact I].
  - rewrite (create_environmental_map_Raises _ _ _ _ E).
    do 2 eexists. split; [reflexivity|]. split; [reflexivity|].
    split; [reflexivity | exact (classified_frame_Raises _ _ _ _ E)].
Qed.

(** The Exit button ends the run before the content block: the page
    shows the headings, the farewell and the balloons, and neither a
    validation message nor a chart, whatever the other widgets hold. *)
Theorem exit_stops_before_content data (w : widgets) :
  exit w = true ->
  main data w
  = (([StTitle; StMarkdown None; StSubheader HConfiguration;
       StSubheader HFacilityInformation; StSubheader HActions]
      ++ (if about w then [StInfo AboutThisTool] else [])
      ++ [StWarning ThankYou; StBalloons])%list,
     Raises StopException).
Proof.
  intros H. unfold main, main_col1. rewrite H.
  destruct (about w); reflexivity.
Qed.

Lemma exit_stops_before_content_witness :
  main (mkData [] [Fin 2] [] [Fin 1001])
    (mkWidgets "USA" "carbon footprint" "abc" "kW" "2" "gpm" false true true)
  = ([StTitle; StMarkdown None; StSubheader HConfiguration;
      StSubheader HFacilityInformation; StSubheader HActions;
      StWarning ThankYou; StBalloons],
     Raises StopException).
Proof.
  apply (exit_stops_before_content (mkData [] [Fin 2] [] [Fin 1001])
           (mkWidgets "USA" "carbon footprint" "abc" "kW" "2" "gpm"
              false true true)).
  reflexivity.
Defined.

Lemma forallb_not_chart (l : list st_call) :
  forallb (fun c => negb (is_chart c) && negb (is_error c)) l = true ->
  existsb is_chart l = false /\ existsb is_error l = false.
Proof.
  induction l as [|c l IH]; simpl; [auto|].
  intros H. apply andb_prop in H. destruct H as [Hc Hl].
  apply andb_prop in Hc. destruct Hc as [H1 H2].
  apply negb_true_iff in H1, H2. rewrite H1, H2. simpl. now apply IH.
Qed.

Lemma forallb_not_error (l : list st_call) :
  forallb (fun c => negb (is_error c)) l = true -> existsb is_error l = false.
Proof.
  induction l as [|c l IH]; simpl; [auto|].
  intros H. apply andb_prop in H. destruct H as [Hc Hl].
  apply negb_true_iff in Hc. rewrite Hc. simpl. now apply IH.
Qed.

(** The content block, analysed: what it draws and how it ends. *)
Lemma main_col2_cases data (w : widgets) :
  exists l o,
    main_col2 data w = (l, o) /\
    (existsb is_error l = true -> existsb is_chart l = false) /\
    match o with
    | Returns _ => True
    | Raises e => In e [KeyError; ValueError; IndexError]
    end.
Proof.
  unfold main_col2. destruct (make_plot w).
  2:{ do 2 eexists. split; [reflexivity|]. split; [discriminate | exact I]. }
  destruct (validate_if_provided_cases (power_value w) "Power consumption")
    as [ok1 [x1 [w1 [E1 [Hw1 [Hx1 _]]]]]].
  destruct (validate_if_provided_cases (water_value w) "Water consumption")
    as [ok2 [x2 [w2 [E2 [Hw2 [Hx2 _]]]]]].
  rewrite E1. cbn [bind]. rewrite E2. cbn [bind fst snd].
  destruct (create_environmental_map_cases data (metric_option w) (state w))
    as [lm [om [Em [Hlm Hom]]]].
  rewrite !truthy_strip.
  destruct ok1, ok2; cbn [andb ret].
  - (* both accepted or blank: no message was shown *)
    assert (w1 = []) by (destruct Hw1 as [|[? _]]; [assumption|discriminate]).
    assert (w2 = []) by (destruct Hw2 as [|[? _]]; [assumption|discriminate]).
    subst. rewrite Em. cbn [bind app].
    destruct om as [[]|e].
    + destruct (blank (power_value w)) eqn:B1,
               (blank (water_value w)) eqn:B2; cbn [negb andb ret].
      * do 2 eexists. split; [rewrite app_nil_r; reflexivity|].
        split; [|exact I]. intros H.
        rewrite (forallb_not_error _ Hlm) in H. discriminate.
      * do 2 eexists. split; [rewrite app_nil_r; reflexivity|].
        split; [|exact I]. intros H.
        rewrite (forallb_not_error _ Hlm) in H. discriminate.
      * do 2 eexists. split; [rewrite app_nil_r; reflexivity|].
        split; [|exact I]. intros H.
        rewrite (forallb_not_error _ Hlm) in H. discriminate.
      * destruct x1 as [p|]; [|exfalso; destruct Hx1 as [Hx _];
                                 specialize (Hx eq_refl); congruence].
        destruct x2 as [q|]; [|exfalso; destruct Hx2 as [Hx _];
                                 specialize (Hx eq_refl); congruence].
        unfold calculate_facility_impact. cbn [bind emit app].
        do 2 eexists. split; [reflexivity|]. split; [|exact I].
        intros H. rewrite existsb_app in H.
        rewrite (forallb_not_error _ Hlm) in H. discriminate.
    + destruct Hom as [-> He]. do 2 eexists. split; [reflexivity|].
      split; [discriminate | exact He].
  - do 2 eexists. split; [rewrite !app_nil_r; reflexivity|].
    split; [|exact I]. intros _.
    destruct Hw1 as [->|[_ [msg1 ->]]], Hw2 as [->|[_ [msg2 ->]]];
      reflexivity.
  - do 2 eexists. split; [rewrite !app_nil_r; reflexivity|].
    split; [|exact I]. intros _.
    destruct Hw1 as [->|[_ [msg1 ->]]], Hw2 as [->|[_ [msg2 ->]]];
      reflexivity.
  - do 2 eexists. split; [rewrite !app_nil_r; reflexivity|].
    split; [|exact I]. intros _.
    destruct Hw1 as [->|[_ [msg1 ->]]], Hw2 as [->|[_ [msg2 ->]]];
      reflexivity.
Qed.

(** A validation message and the chart never appear in one run: once a
    field is refused, the map is not drawn. *)
Theorem error_suppresses_map data (w : widgets) :
  existsb is_error (calls (main data w)) = true ->
  existsb is_chart (calls (main data w)) = false.
Proof.
  destruct (main_col1_cases w) as [l1 [Hl1 E1]].
  destruct (main_col2_cases data w) as [l2 [o2 [E2 [H2 _]]]].
  destruct (forallb_not_chart _ Hl1) as [Hc1 He1].
  unfold main. rewrite E1, E2.
  destruct (exit w); unfold calls; simpl.
  - rewrite Hc1, He1. discriminate.
  - rewrite !existsb_app, Hc1, He1. simpl. exact H2.
Qed.

Lemma error_suppresses_map_witness :
  let data := mkData [] [Fin 2; Fin 5] [] [Fin 1001; Fin 6037] in
  let w := mkWidgets "USA" "carbon footprint" "-3" "kW" "2" "gpm"
             false true false in
  existsb is_error (calls (main data w)) = true /\
  existsb is_chart (calls (main data w)) = false.
Proof.
  intros data w.
  assert (H : existsb is_error (calls (main data w)) = true)
    by (vm_compute; reflexivity).
  split; [exact H|]. exact (error_suppresses_map data w H).
Defined.


Lemma validate_numeric_input_true_not_blank (value field_name : string)
    (w : list st_call) (x : pyfloat) :
  validate_numeric_input value field_name = (w, Returns (true, x)) ->
  blank value = false.
Proof.
  unfold validate_numeric_input. rewrite truthy_strip, negb_involutive.
  destruct (blank value); [discriminate | reflexivity].
Qed.

(** With both fields accepted and the map drawn, the content block is the
    map followed by the facility figures: the power and the water read
    from the two texts, converted with the selected units. *)
Theorem facility_figures_shown data (w : widgets) (x y : pyfloat)
    (lm : list st_call) :
  make_plot w = true ->
  validate_numeric_input (power_value w) "Power consumption"
    = ([], Returns (true, x)) ->
  validate_numeric_input (water_value w) "Water consumption"
    = ([], Returns (true, y)) ->
  create_environmental_map data (metric_option w) (state w)
    = (lm, Returns tt) ->
  main_col2 data w
  = ((lm ++
      [StSubheader HYourFacilitysImpact;
       StMetric "Annual Power Consumption"
         (PerYear (convert_power_to_kwh_per_year x (power_unit w))
            "kWh/year")
         (From x (power_unit w));
       StMetric "Annual Water Consumption"
         (PerYear (convert_water_to_liters_per_year y (water_unit w))
            "L/year")
         (From y (water_unit w));
       StInfo FacilityNote])%list,
     Returns tt).
Proof.
  intros Hm Hp Hw Hmap.
  pose proof (validate_numeric_input_true_not_blank _ _ _ _ Hp) as Bp.
  pose proof (validate_numeric_input_true_not_blank _ _ _ _ Hw) as Bw.
  unfold main_col2, validate_if_provided.
  rewrite Hm, !truthy_strip, Bp, Bw. cbn [negb].
  rewrite Hp. cbn [bind ret fst snd app]. rewrite Hw.
  cbn [bind ret fst snd app andb]. rewrite Hmap.
  unfold calculate_facility_impact. cbn [bind emit ret app].
  reflexivity.
Qed.

Lemma facility_figures_shown_witness :
  let data := mkData [] [Fin 2; Fin 5] [] [Fin 1001; Fin 6037] in
  let w := mkWidgets "USA" "carbon footprint" "5" "kW" "2" "gpm"
             false true false in
  exists lm,
    create_environmental_map data (metric_option w) (state w)
      = (lm, Returns tt) /\
    In (StMetric "Annual Power Consumption"
          (PerYear (PyFloat (Fin 43800)) "kWh/year") (From (Fin 5) "kW"))
       (calls (main_col2 data w)).
Proof.
  intros data w. eexists. split; [vm_compute; reflexivity|].
  rewrite (facility_figures_shown data w (Fin (5 * 10 ^ (0 - 0)))
             (Fin (2 * 10 ^ (0 - 0))) _ eq_refl eq_refl eq_refl eq_refl).
  unfold calls. cbn [fst]. apply in_or_app. right.
  right. left. reflexivity.
Defined.

(** ** Loading *)

Lemma load_array_cases metrics (k : string) (cont : list pyfloat -> St dataset) :
  (exists m, getitem metrics k = Returns m /\
     load_array metrics k cont = cont (flatten m)) \/
  (getitem metrics k = Raises KeyError /\
   load_array metrics k cont
   = ([StError ("Error loading data: " ++ str_KeyError k)],
      Raises StopException)).
Proof.
  unfold load_array. destruct (getitem metrics k) as [m|e] eqn:E.
  - left. now exists m.
  - right. assert (e = KeyError).
    { clear -E. induction metrics as [|[k' v] l IH]; simpl in E;
        [congruence|]. destruct (k' =? k); [discriminate | auto]. }
    subst. split; reflexivity.
Qed.

Lemma load_data_cases (file : mat_file) :
  (exists msg, load_data file = ([StError msg], Raises StopException)) \/
  (exists metrics aware ef ewif fips,
     file = MatFile metrics /\
     getitem metrics "AWAREUSCF" = Returns aware /\
     getitem metrics "EFkgkWh" = Returns ef /\
     getitem metrics "EWIF" = Returns ewif /\
     getitem metrics "CountyFIPS" = Returns fips /\
     load_data file
     = ([], Returns (mkData (flatten aware) (flatten ef) (flatten ewif)
                       (flatten fips)))).
Proof.
  destruct file as [|message|metrics]; simpl.
  - left. now eexists.
  - left. now eexists.
  - destruct (load_array_cases metrics "AWAREUSCF"
                (fun aware =>
                   load_array metrics "EFkgkWh" (fun ef =>
                   load_array metrics "EWIF" (fun ewif =>
                   load_array metrics "CountyFIPS" (fun fips =>
                   ret (mkData aware ef ewif fips))))))
      as [[a [Ea ->]]|[_ ->]]; [|left; now eexists].
    destruct (load_array_cases metrics "EFkgkWh"
                (fun ef =>
                   load_array metrics "EWIF" (fun ewif =>
                   load_array metrics "CountyFIPS" (fun fips =>
                   ret (mkData (flatten a) ef ewif fips)))))
      as [[b [Eb ->]]|[_ ->]]; [|left; now eexists].
    destruct (load_array_cases metrics "EWIF"
                (fun ewif =>
                   load_array metrics "CountyFIPS" (fun fips =>
                   ret (mkData (flatten a) (flatten b) ewif fips))))
      as [[c [Ec ->]]|[_ ->]]; [|left; now eexists].
    destruct (load_array_cases metrics "CountyFIPS"
                (fun fips =>
                   ret (mkData (flatten a) (flatten b) (flatten c) fips)))
      as [[d [Ed ->]]|[_ ->]]; [|left; now eexists].
    right. exists metrics, a, b, c, d. repeat split; assumption.
Qed.

(** Loading either returns the four arrays, having written nothing to
    the page, or writes exactly one [st.error] and stops the script: no
    other exception leaves [load_data].  It returns exactly when the file
    is read and holds the four variables; the arrays are then their
    flattenings. *)
Theorem load_data_returns_or_stops (file : mat_file) :
  (exists msg, load_data file = ([StError msg], Raises StopException)) \/
  (exists metrics aware ef ewif fips,
     file = MatFile metrics /\
     getitem metrics "AWAREUSCF" = Returns aware /\
     getitem metrics "EFkgkWh" = Returns ef /\
     getitem metrics "EWIF" = Returns ewif /\
     getitem metrics "CountyFIPS" = Returns fips /\
     load_data file
     = ([], Returns (mkData (flatten aware) (flatten ef) (flatten ewif)
                       (flatten fips)))).
Proof. exact (load_data_cases file). Qed.

(** A variable stored as a matrix of [rows] rows of [cols] entries is
    loaded as an array of [rows * cols] entries; a single-column matrix of
    N rows gives N entries. *)
Lemma flatten_length (m : list (list pyfloat)) (cols : nat) :
  Forall (fun r => List.length r = cols) m ->
  List.length (flatten m) = (List.length m * cols)%nat.
Proof.
  unfold flatten. induction 1 as [|r m Hr _ IH]; simpl; [reflexivity|].
  rewrite length_app, IH, Hr. reflexivity.
Qed.

(** A missing variable is reported by name, the first missing one in the
    order AWAREUSCF, EFkgkWh, EWIF, CountyFIPS; so a file without the
    county codes but with the three metrics stops with the message naming
    CountyFIPS. *)
Lemma load_data_missing_variable metrics :
  (getitem metrics "AWAREUSCF" = Raises KeyError ->
     load_data (MatFile metrics)
     = ([StError "Error loading data: 'AWAREUSCF'"], Raises StopException)) /\
  (forall aware ef ewif,
     getitem metrics "AWAREUSCF" = Returns aware ->
     getitem metrics "EFkgkWh" = Returns ef ->
     getitem metrics "EWIF" = Returns ewif ->
     getitem metrics "CountyFIPS" = Raises KeyError ->
     load_data (MatFile metrics)
     = ([StError "Error loading data: 'CountyFIPS'"], Raises StopException)).
Proof.
  split.
  - intros H. unfold load_data, load_array. rewrite H. reflexivity.
  - intros aware ef ewif Ha Hb Hc Hd.
    unfold load_data, load_array. rewrite Ha, Hb, Hc, Hd. reflexivity.
Qed.

(** A file whose four variables are matrices of [rows] rows of [cols]
    entries (single-column matrices of N rows in particular) is loaded
    without any message, as four arrays of [rows * cols] entries each: the
    arrays the frame is built from have one length. *)
Theorem load_data_equal_lengths metrics (rows cols : nat) :
  (forall k, In k ["AWAREUSCF"; "EFkgkWh"; "EWIF"; "CountyFIPS"] ->
     exists m, getitem metrics k = Returns m /\
       List.length m = rows /\
       Forall (fun r => List.length r = cols) m) ->
  exists data,
    load_data (MatFile metrics) = ([], Returns data) /\
    List.length (AWAREUSCF data) = (rows * cols)%nat /\
    List.length (EFkgkWh data) = (rows * cols)%nat /\
    List.length (EWIF data) = (rows * cols)%nat /\
    List.length (CountyFIPS data) = (rows * cols)%nat.
Proof.
  intros H.
  destruct (H "AWAREUSCF") as [a [Ea [La Fa]]]; [cbn [In]; auto|].
  destruct (H "EFkgkWh") as [b [Eb [Lb Fb]]]; [cbn [In]; auto|].
  destruct (H "EWIF") as [c [Ec [Lc Fc]]]; [cbn [In]; auto|].
  destruct (H "CountyFIPS") as [d [Ed [Ld Fd]]]; [cbn [In]; auto 6|].
  eexists. split.
  { unfold load_data, load_array. rewrite Ea, Eb, Ec, Ed. reflexivity. }
  cbn [AWAREUSCF EFkgkWh EWIF CountyFIPS].
  rewrite (flatten_length a cols Fa), (flatten_length b cols Fb),
    (flatten_length c cols Fc), (flatten_length d cols Fd).
  rewrite La, Lb, Lc, Ld. repeat split; reflexivity.
Qed.

Lemma load_data_equal_lengths_witness :
  exists data,
    load_data (MatFile [("AWAREUSCF", [[Fin 1]; [Fin 2]]);
                        ("EFkgkWh", [[Fin 3]; [Fin 4]]);
                        ("EWIF", [[Fin 5]; [Fin 6]]);
                        ("CountyFIPS", [[Fin 1001]; [Fin 1003]])])
      = ([], Returns data) /\
    List.length (EFkgkWh data) = 2%nat /\
    List.length (CountyFIPS data) = 2%nat.
Proof.
  destruct (load_data_equal_lengths
              [("AWAREUSCF", [[Fin 1]; [Fin 2]]);
               ("EFkgkWh", [[Fin 3]; [Fin 4]]);
               ("EWIF", [[Fin 5]; [Fin 6]]);
               ("CountyFIPS", [[Fin 1001]; [Fin 1003]])] 2 1)
    as [data [E [_ [L2 [_ L4]]]]].
  - intros k [<-|[<-|[<-|[<-|[]]]]]; eexists;
      (split; [reflexivity|]); split; try reflexivity;
      repeat constructor.
  - exists data. repeat split; assumption.
Defined.

(** When loading fails the page shows the one error and nothing else:
    no title, no widget heading, no chart; the run ends there.  When it
    succeeds the run is that of [main] on the loaded arrays. *)
Theorem script_stops_on_load_failure (file : mat_file) (w : widgets) :
  (exists msg,
     script file w = ([StError msg], Raises StopException)) \/
  (exists data,
     load_data file = ([], Returns data) /\ script file w = main data w).
Proof.
  unfold script.
  destruct (load_data_cases file)
    as [[msg E] | [metrics [a [b [c [d [_ [_ [_ [_ [_ E]]]]]]]]]]].
  - left. exists msg. now rewrite E.
  - right. eexists. split; [exact E|]. rewrite E. simpl.
    now destruct (main _ w).
Qed.
